(** * llmchat: a shallow embedding of [llmchat.py]

    The program is a single Streamlit script.  It keeps the conversation and
    the rate window in [st.session_state], streams a chat completion from one
    of two providers, accumulates the streamed deltas into the assistant
    message and saves the conversation as one JSON file per chat.

    What the script reads from its surroundings is an explicit argument of the
    model: the clock, the reply of the HTTP server, how far a write to the
    history directory gets, the values of the widgets.  Exceptions are
    values of [exn]; a computation that may raise returns a [result].

    Text ([str]) is modelled by Rocq strings, that is, text whose code points
    lie below 256.  Times are rationals: the floats that [time.time()]
    returns are rationals, and for the clock values of this era (between
    2^30 and 2^31 seconds) the float subtraction [now - 60] is exact. *)

From Stdlib Require Import QArith Lqa Ascii String.
From stdpp Require Import gmap strings list fin_maps.

Open Scope string_scope.
Open Scope nat_scope.
Open Scope list_scope.
Open Scope stdpp_scope.
Set Warnings "-register-all".

(** ** Exceptions and results *)

(** Failures of the network layer ([requests.exceptions]) other than
    [HTTPError]. *)
Inductive transport_error := ConnectionError | Timeout | ChunkedEncodingError.

(** The exception classes the chat handler can meet. *)
Inductive exn :=
| HTTPError (status_code : Z)
| Transport (t : transport_error)
| UnicodeDecodeError
| JSONDecodeError
| TypeError
| KeyError
| IndexError
| AttributeError
| OSError.

Inductive result (A : Type) :=
| Ok (a : A)
| Raise (e : exn).
Arguments Ok {A} a.
Arguments Raise {A} e.

#[export] Instance result_ret : MRet result := fun _ a => Ok a.
#[export] Instance result_bind : MBind result := fun _ _ f m =>
  match m with
  | Ok a => f a
  | Raise e => Raise e
  end.
#[export] Instance result_fmap : FMap result := fun _ _ f m =>
  match m with
  | Ok a => Ok (f a)
  | Raise e => Raise e
  end.

Definition raises {A} (m : result A) : Prop := ∃ e, m = Raise e.

(** ** Python [str] methods used by the script *)

Module Py.

Abbreviation chars := list_ascii_of_string.
Abbreviation str := string_of_list_ascii.

(** [str.isspace] on one character below U+0100: the characters removed by
    [str.strip()]. *)
Definition isspace (c : ascii) : bool :=
  let n := nat_of_ascii c in
  (((9 <=? n) && (n <=? 13)) || ((28 <=? n) && (n <=? 32))
   || (n =? 133) || (n =? 160))%nat.

Fixpoint dropwhile (p : ascii → bool) (l : list ascii) : list ascii :=
  match l with
  | [] => []
  | c :: l' => if p c then dropwhile p l' else l
  end.

(** [s.lstrip(cs)]: removes leading characters that occur in [cs]. *)
Definition lstrip (cs : string) (s : string) : string :=
  str (dropwhile (λ c, bool_decide (c ∈ chars cs)) (chars s)).

(** [s.strip()]: removes white space at both ends. *)
Definition strip (s : string) : string :=
  str (reverse (dropwhile isspace (reverse (dropwhile isspace (chars s))))).

(** [s.startswith(p)] *)
Definition startswith (p s : string) : bool := String.prefix p s.

(** [s.endswith(p)] *)
Definition endswith (p s : string) : bool :=
  bool_decide (drop (length (chars s) - length (chars p)) (chars s) = chars p).

(** [s[n:]] *)
Definition slice_from (n : nat) (s : string) : string := str (drop n (chars s)).

(** [s[:-n]] for [n > 0] *)
Definition slice_until_last (n : nat) (s : string) : string :=
  str (take (length (chars s) - n) (chars s)).

(** [s[:n]] *)
Definition slice_to (n : nat) (s : string) : string := str (take n (chars s)).

(** [p in s] for two strings: [p] occurs in [s]. *)
Fixpoint contains_chars (p s : list ascii) : bool :=
  bool_decide (take (length p) s = p) ||
  match s with
  | [] => false
  | _ :: s' => contains_chars p s'
  end.
Definition contains (p s : string) : bool := contains_chars (chars p) (chars s).

(** [sep.join(l)] *)
Fixpoint join (sep : string) (l : list string) : string :=
  match l with
  | [] => ""
  | [x] => x
  | x :: l' => x +:+ sep +:+ join sep l'
  end.

End Py.

(** ** JSON values, as Python sees them after [json.loads]

    A JSON object becomes a [dict]; the association list keeps the members in
    the order of the text and a key given twice is looked up at its last
    occurrence, as the [dict] built by [json.loads] does.  A number is kept as
    its literal: the script never computes with one. *)

Inductive json :=
| JNull
| JBool (b : bool)
| JNum (literal : string)
| JStr (s : string)
| JArr (items : list json)
| JObj (members : list (string * json)).

Fixpoint dict_get (k : string) (d : list (string * json)) : option json :=
  match d with
  | [] => None
  | (k', v) :: d' =>
      match dict_get k d' with
      | Some w => Some w
      | None => if String.eqb k k' then Some v else None
      end
  end.

(** The [json] module, as far as the script uses it: [json.loads]
    ([None] when it raises [JSONDecodeError]) and [json.dumps].  The script
    is verified against any implementation of this interface. *)
Class JsonModule := {
  json_loads : string → option json;
  json_dumps : json → string
}.

(** ** Operations of Python on a decoded JSON value

    The streaming loop applies [in], subscription, [.get] and [+=] to values
    whose type is only known at run time; each operation raises on the types
    it does not support. *)

(** [k in v] *)
Definition py_in (k : string) (v : json) : result bool :=
  match v with
  | JObj d => Ok (bool_decide (is_Some (dict_get k d)))
  | JStr s => Ok (Py.contains k s)
  | JArr l => Ok (existsb (λ x, match x with JStr s => String.eqb k s | _ => false end) l)
  | JNull | JBool _ | JNum _ => Raise TypeError
  end.

(** [v[k]] for a string [k] *)
Definition py_getitem (v : json) (k : string) : result json :=
  match v with
  | JObj d => match dict_get k d with Some x => Ok x | None => Raise KeyError end
  | _ => Raise TypeError
  end.

(** [v[0]] *)
Definition py_getitem_0 (v : json) : result json :=
  match v with
  | JArr (x :: _) => Ok x
  | JArr [] => Raise IndexError
  | JStr (String c _) => Ok (JStr (String c ""))
  | JStr "" => Raise IndexError
  | JObj _ => Raise KeyError
  | JNull | JBool _ | JNum _ => Raise TypeError
  end.

(** [v.get(k, default)] *)
Definition py_get (v : json) (k : string) (default : json) : result json :=
  match v with
  | JObj d => Ok (match dict_get k d with Some x => x | None => default end)
  | _ => Raise AttributeError
  end.

(** [acc += v] where [acc] is a [str] *)
Definition py_iadd (acc : string) (v : json) : result string :=
  match v with
  | JStr s => Ok (acc +:+ s)
  | _ => Raise TypeError
  end.

(** ** Providers *)

Inductive provider := DeepSeekDirect | OpenRouter.

Record provider_config := {
  base_url : string;
  model : string;
  headers : list (string * string)
}.

Definition provider_name (p : provider) : string :=
  match p with
  | DeepSeekDirect => "DeepSeek Direct"
  | OpenRouter => "OpenRouter"
  end.

Definition API_PROVIDERS (p : provider) : provider_config :=
  match p with
  | DeepSeekDirect =>
      {| base_url := "https://api.deepseek.com/v1";
         model := "deepseek-chat";
         headers := [] |}
  | OpenRouter =>
      {| base_url := "https://openrouter.ai/api/v1";
         model := "deepseek/deepseek-chat-v3-0324:free";
         headers := [("HTTP-Referer", "http://localhost:8501");
                     ("X-Title", "DeepSeek Chat App")] |}
  end.

(** ** The streamed response

    [response.iter_lines()] yields the lines of the body as [bytes].  A line
    is given by what [chunk.decode()] makes of it: the text it decodes to, or
    [Undecodable] when the bytes are not UTF-8 ([decode] raises).  The empty
    line decodes to the empty text. *)

Inductive chunk :=
| Decodes (text : string)
| Undecodable.

(** [if chunk:] *)
Definition chunk_nonempty (c : chunk) : bool :=
  match c with
  | Decodes "" => false
  | _ => true
  end.

(** [chunk.decode()] *)
Definition decode (c : chunk) : result string :=
  match c with
  | Decodes s => Ok s
  | Undecodable => Raise UnicodeDecodeError
  end.

Section Streaming.
Context `{!JsonModule}.

(** [json.loads(s)] *)
Definition loads (s : string) : result json :=
  match json_loads s with
  | Some v => Ok v
  | None => Raise JSONDecodeError
  end.

(** Lines 162-167: the value of [chunk_json] after the provider branch. *)
Definition read_frame (api_provider : provider) (chunk_json : json) (c : chunk)
  : result json :=
  match api_provider with
  | OpenRouter =>
      chunk_str ← Py.strip <$> decode c;
      if Py.startswith "data: " chunk_str
      then loads (Py.slice_from 6 chunk_str)
      else Ok chunk_json
  | DeepSeekDirect =>
      s ← decode c;
      loads (Py.lstrip "data: " s)
  end.

(** Lines 169-172: the value of [full_response] after the payload in
    [chunk_json] has been looked at. *)
Definition add_delta (chunk_json : json) (full_response : string) : result string :=
  has_choices ← py_in "choices" chunk_json;
  if has_choices : bool then
    choices ← py_getitem chunk_json "choices";
    choice ← py_getitem_0 choices;
    delta ← py_get choice "delta" (JObj []);
    has_content ← py_in "content" delta;
    if has_content : bool then
      piece ← py_getitem delta "content";
      py_iadd full_response piece
    else Ok full_response
  else Ok full_response.

(** One turn of the [for chunk in response.iter_lines()] loop on the pair
    ([chunk_json], [full_response]). *)
Definition loop_body (api_provider : provider) (vars : json * string) (c : chunk)
  : result (json * string) :=
  if chunk_nonempty c then
    chunk_json ← read_frame api_provider vars.1 c;
    full_response ← add_delta chunk_json vars.2;
    Ok (chunk_json, full_response)
  else Ok vars.

Fixpoint stream_loop (api_provider : provider) (vars : json * string)
    (chunks : list chunk) : result (json * string) :=
  match chunks with
  | [] => Ok vars
  | c :: chunks' =>
      vars' ← loop_body api_provider vars c;
      stream_loop api_provider vars' chunks'
  end.

End Streaming.

(** ** A reference implementation of the [json] module

    A decoder and an encoder for JSON texts, used to run the script on
    concrete streams and files.  [loads] follows the grammar [json.loads]
    accepts (white space, objects, arrays, strings with escapes, numbers,
    [true], [false], [null], and Python's [NaN] and [Infinity]); an escape
    [\uXXXX] is read when its code point is below 256.  [dumps] writes what
    [json.dumps] writes with its default separators and [ensure_ascii]. *)

Module Json.

Definition quote : ascii := "034"%char.
Definition backslash : ascii := "092"%char.

Definition is_ws (c : ascii) : bool :=
  let n := nat_of_ascii c in ((n =? 32) || (n =? 9) || (n =? 10) || (n =? 13))%nat.

Definition is_digit (c : ascii) : bool :=
  let n := nat_of_ascii c in ((48 <=? n) && (n <=? 57))%nat.

Fixpoint skip_ws (s : string) : string :=
  match s with
  | String c r => if is_ws c then skip_ws r else s
  | "" => ""
  end.

Definition hex_digit (c : ascii) : option nat :=
  let n := nat_of_ascii c in
  if ((48 <=? n) && (n <=? 57))%nat then Some (n - 48)
  else if ((97 <=? n) && (n <=? 102))%nat then Some (n - 87)
  else if ((65 <=? n) && (n <=? 70))%nat then Some (n - 55)
  else None.

(** The character an escape [\c] stands for. *)
Definition unescape (c : ascii) : option ascii :=
  if Ascii.eqb c quote then Some quote
  else if Ascii.eqb c backslash then Some backslash
  else if Ascii.eqb c "/" then Some "/"%char
  else if Ascii.eqb c "b" then Some "008"%char
  else if Ascii.eqb c "f" then Some "012"%char
  else if Ascii.eqb c "n" then Some "010"%char
  else if Ascii.eqb c "r" then Some "013"%char
  else if Ascii.eqb c "t" then Some "009"%char
  else None.

(** The rest of a string literal after its opening quote: the decoded text
    and what follows the closing quote. *)
Fixpoint string_body (s : string) : option (string * string) :=
  match s with
  | "" => None
  | String c r =>
      if Ascii.eqb c quote then Some ("", r)
      else if Ascii.eqb c backslash then
        match r with
        | "" => None
        | String e r' =>
            if Ascii.eqb e "u" then
              match r' with
              | String h1 (String h2 (String h3 (String h4 r''))) =>
                  a ← hex_digit h1; b ← hex_digit h2;
                  c ← hex_digit h3; d ← hex_digit h4;
                  let n := ((a * 16 + b) * 16 + c) * 16 + d in
                  if (n <? 256)%nat then
                    '(t, rest) ← string_body r'';
                    Some (String (ascii_of_nat n) t, rest)
                  else None
              | _ => None
              end
            else
              ch ← unescape e;
              '(t, rest) ← string_body r';
              Some (String ch t, rest)
        end
      else if (nat_of_ascii c <? 32)%nat then None
      else
        '(t, rest) ← string_body r;
        Some (String c t, rest)
  end.

Fixpoint span_digits (s : string) : string * string :=
  match s with
  | String c r =>
      if is_digit c then let '(ds, rest) := span_digits r in (String c ds, rest)
      else ("", s)
  | "" => ("", "")
  end.

(** The longest prefix of [s] that is a number literal: an optional minus
    sign, then either 0 or a digit other than 0 followed by digits, then
    optionally a dot and at least one digit, then optionally an exponent
    (e or E, an optional sign, at least one digit). *)
Definition number (s : string) : option (string * string) :=
  let '(sign, s1) :=
    match s with
    | String c r => if Ascii.eqb c "-" then ("-", r) else ("", s)
    | "" => ("", s)
    end in
  int_part ←
    match s1 with
    | String c r =>
        if Ascii.eqb c "0" then Some ("0", r)
        else if is_digit c then
          let '(ds, rest) := span_digits r in Some (String c ds, rest)
        else None
    | "" => None
    end;
  let '(int, s2) := int_part in
  let '(frac, s3) :=
    match s2 with
    | String c r =>
        if Ascii.eqb c "." then
          let '(ds, rest) := span_digits r in
          if String.eqb ds "" then ("", s2) else ("." +:+ ds, rest)
        else ("", s2)
    | "" => ("", s2)
    end in
  let '(exp, s4) :=
    match s3 with
    | String c r =>
        if Ascii.eqb c "e" || Ascii.eqb c "E" then
          let '(sg, r1) :=
            match r with
            | String c' r' =>
                if Ascii.eqb c' "+" || Ascii.eqb c' "-"
                then (String c' "", r') else ("", r)
            | "" => ("", r)
            end in
          let '(ds, rest) := span_digits r1 in
          if String.eqb ds "" then ("", s3) else (String c sg +:+ ds, rest)
        else ("", s3)
    | "" => ("", s3)
    end in
  Some (sign +:+ int +:+ frac +:+ exp, s4).

Definition keyword (s : string) : option (json * string) :=
  if String.prefix "null" s then Some (JNull, Py.slice_from 4 s)
  else if String.prefix "true" s then Some (JBool true, Py.slice_from 4 s)
  else if String.prefix "false" s then Some (JBool false, Py.slice_from 5 s)
  else if String.prefix "NaN" s then Some (JNum "NaN", Py.slice_from 3 s)
  else if String.prefix "Infinity" s then Some (JNum "Infinity", Py.slice_from 8 s)
  else if String.prefix "-Infinity" s then Some (JNum "-Infinity", Py.slice_from 9 s)
  else '(lit, rest) ← number s; Some (JNum lit, rest).

(** Recursive descent, with [n] bounding the number of nested calls.  Each
    function expects the white space before its first token to be gone. *)
Fixpoint value (n : nat) (s : string) : option (json * string) :=
  match n with
  | O => None
  | S n =>
      match s with
      | "" => None
      | String c r =>
          if Ascii.eqb c "{" then
            match skip_ws r with
            | String c' r' =>
                if Ascii.eqb c' "}" then Some (JObj [], r')
                else '(ms, rest) ← members n (String c' r'); Some (JObj ms, rest)
            | "" => None
            end
          else if Ascii.eqb c "[" then
            match skip_ws r with
            | String c' r' =>
                if Ascii.eqb c' "]" then Some (JArr [], r')
                else '(vs, rest) ← elements n (String c' r'); Some (JArr vs, rest)
            | "" => None
            end
          else if Ascii.eqb c quote then
            '(t, rest) ← string_body r; Some (JStr t, rest)
          else keyword s
      end
  end
with elements (n : nat) (s : string) : option (list json * string) :=
  match n with
  | O => None
  | S n =>
      '(v, r) ← value n s;
      match skip_ws r with
      | String c r' =>
          if Ascii.eqb c "," then
            '(vs, rest) ← elements n (skip_ws r'); Some (v :: vs, rest)
          else if Ascii.eqb c "]" then Some ([v], r')
          else None
      | "" => None
      end
  end
with members (n : nat) (s : string) : option (list (string * json) * string) :=
  match n with
  | O => None
  | S n =>
      match s with
      | "" => None
      | String c r =>
          if Ascii.eqb c quote then
            '(k, r1) ← string_body r;
            match skip_ws r1 with
            | String c1 r2 =>
                if Ascii.eqb c1 ":" then
                  '(v, r3) ← value n (skip_ws r2);
                  match skip_ws r3 with
                  | String c3 r4 =>
                      if Ascii.eqb c3 "," then
                        '(ms, rest) ← members n (skip_ws r4);
                        Some ((k, v) :: ms, rest)
                      else if Ascii.eqb c3 "}" then Some ([(k, v)], r4)
                      else None
                  | "" => None
                  end
                else None
            | "" => None
            end
          else None
      end
  end.

Definition loads (s : string) : option json :=
  '(v, rest) ← value (2 * String.length s + 2) (skip_ws s);
  if String.eqb (skip_ws rest) "" then Some v else None.

Definition hex_char (n : nat) : ascii :=
  if (n <? 10)%nat then ascii_of_nat (48 + n) else ascii_of_nat (87 + n).

(** One character of a string literal, as [ensure_ascii] writes it. *)
Definition escape (c : ascii) : string :=
  let n := nat_of_ascii c in
  if Ascii.eqb c quote then String backslash (String quote "")
  else if Ascii.eqb c backslash then String backslash (String backslash "")
  else if (n =? 10)%nat then String backslash "n"
  else if (n =? 13)%nat then String backslash "r"
  else if (n =? 9)%nat then String backslash "t"
  else if (n =? 8)%nat then String backslash "b"
  else if (n =? 12)%nat then String backslash "f"
  else if ((n <? 32) || (126 <? n))%nat then
    String backslash
      (String "u" (String "0" (String "0"
        (String (hex_char (n / 16)) (String (hex_char (n mod 16)) "")))))
  else String c "".

Fixpoint escape_all (s : string) : string :=
  match s with
  | "" => ""
  | String c r => escape c +:+ escape_all r
  end.

Definition literal (s : string) : string :=
  String quote (escape_all s) +:+ String quote "".

Fixpoint dumps (v : json) : string :=
  match v with
  | JNull => "null"
  | JBool true => "true"
  | JBool false => "false"
  | JNum lit => lit
  | JStr s => literal s
  | JArr l => "[" +:+ Py.join ", " (List.map dumps l) +:+ "]"
  | JObj d =>
      "{" +:+ Py.join ", " (List.map (λ kv, literal kv.1 +:+ ": " +:+ dumps kv.2) d)
      +:+ "}"
  end.

Definition module : JsonModule :=
  {| json_loads := loads; json_dumps := dumps |}.

(** JSON text is written below with ['] in place of the double quote. *)
Definition text (s : string) : string :=
  Py.str ((λ c, if Ascii.eqb c "'" then quote else c) <$> Py.chars s).

End Json.

(** ** Session state ([st.session_state]) *)

(** A message is the [dict] with the keys ["role"] and ["content"]. *)
Record message := { role : string; content : string }.

Record session_state := {
  messages : list message;
  current_chat : string;
  chat_history : gmap string json;
  api_calls : list Q
}.

Definition set_messages (l : list message) (st : session_state) : session_state :=
  {| messages := l; current_chat := current_chat st;
     chat_history := chat_history st; api_calls := api_calls st |}.

Definition set_api_calls (l : list Q) (st : session_state) : session_state :=
  {| messages := messages st; current_chat := current_chat st;
     chat_history := chat_history st; api_calls := l |}.

(** Lines 41-48, with the identifier [uuid.uuid4()] returns. *)
Definition initial_state (uuid4 : string) : session_state :=
  {| messages := []; current_chat := uuid4; chat_history := ∅; api_calls := [] |}.

(** [st.session_state.messages.append(m)] *)
Definition messages_append (m : message) (st : session_state) : session_state :=
  set_messages (messages st ++ [m]) st.

(** [st.session_state.messages.pop()] *)
Definition messages_pop (st : session_state) : result session_state :=
  match messages st with
  | [] => Raise IndexError
  | _ :: _ => Ok (set_messages (removelast (messages st)) st)
  end.

(** ** The rate window ([check_rate_limit]) *)

(** [x > y] on times *)
Definition Qgtb (x y : Q) : bool := negb (Qle_bool x y).

(** The list comprehension of line 80. *)
Definition prune (now : Q) (calls : list Q) : list Q :=
  List.filter (λ t, Qgtb t (now - 60)) calls.

Definition check_rate_limit (now : Q) (st : session_state) : bool * session_state :=
  let st := set_api_calls (prune now (api_calls st)) st in
  if (10 <=? length (api_calls st))%nat then (false, st)
  else (true, set_api_calls (api_calls st ++ [now]) st).

(** ** Attached files ([read_uploaded_file]) *)

Definition newline : string := String "010"%char "".

(** An uploaded file, with what the library calls on it give: [None] stands
    for a call that raises. *)
Record uploaded_file := {
  type : string;
  read_decode : option string;          (* file.read().decode() *)
  paragraphs : option (list string)     (* the texts of Document(file).paragraphs *)
}.

Definition docx_type : string :=
  "application/vnd.openxmlformats-officedocument.wordprocessingml.document".

Definition read_uploaded_file (file : uploaded_file) : string :=
  if String.eqb (type file) "text/plain" then
    match read_decode file with Some s => s | None => "" end
  else if String.eqb (type file) docx_type then
    match paragraphs file with Some ps => Py.join newline ps | None => "" end
  else "".

(** ** Persistence and the chat handler *)

Definition json_of_message (m : message) : json :=
  JObj [("role", JStr (role m)); ("content", JStr (content m))].

(** The [dict] that [save_chat_history] dumps. *)
Definition history_record (timestamp : string) (l : list message) : json :=
  JObj [("timestamp", JStr timestamp); ("messages", JArr (json_of_message <$> l))].

(** What the reference encoder writes between the brackets for a list of
    messages. *)
Definition dumps_messages (l : list message) : string :=
  Py.join ", " (List.map Json.dumps (json_of_message <$> l)).

(** The answer of the network to [requests.post(..., stream=True)]: the call
    raises, or it returns a response whose body is read line by line and may
    break off after the lines it delivers. *)
Record response := {
  status_code : Z;
  iter_lines : list chunk;
  interrupted : option transport_error
}.

Inductive post_result :=
| PostRaises (t : transport_error)
| PostReturns (r : response).

(** How far the two lines of [save_chat_history] get.  [open(file_path, "w")]
    raises and the file is left as it was; or it succeeds, which empties the
    file, and the write of [json.dump] breaks off with an error after
    [written] characters of the text (none when [written] is 0); or the whole
    text is written. *)
Inductive write_result :=
| OpenRaises
| WriteRaises (written : nat)
| Written.

(** What one run of the script reads from outside.  The request of lines
    131-143 (headers, model, system prompt and messages, sampling
    parameters) decides nothing in the script; what the server makes of it
    is the field [post]. *)
Record world := {
  now : Q;                  (* time.time() *)
  isoformat : string;       (* datetime.now().isoformat() *)
  post : post_result;       (* requests.post(...) *)
  disk : write_result       (* open(file_path, "w") and json.dump(..., f) *)
}.

(** The history file can be written: the file is opened and the whole text
    is written to it. *)
Definition writable (w : world) : bool :=
  match disk w with
  | Written => true
  | _ => false
  end.

(** The widgets the handler reads. *)
Record widgets := {
  api_provider : provider;
  api_key : string;
  uploaded : option uploaded_file;
  chat_input : option string
}.

(** How the handler ends. *)
Inductive outcome :=
| Idle                          (* no prompt was entered *)
| RateLimited                   (* st.stop() at line 117 *)
| MissingApiKey                 (* st.stop() at line 121 *)
| Answered (full_response : string)
| ApiError (status : Z)         (* the handler of line 179 ran *)
| Failed (e : exn)              (* the handler of line 190 ran *)
| Uncaught (e : exn).

Section Script.
Context `{!JsonModule}.

(** Files of [HISTORY_DIR], by name. *)
Definition file_path (chat : string) : string := chat +:+ ".json".

(** Lines 50-56.  The files after the call are returned whether it raises or
    not: once the file is open its old content is gone, also when the write
    fails. *)
Definition save_chat_history (w : world) (st : session_state)
    (fs : gmap string string) : result unit * gmap string string :=
  let text := json_dumps (history_record (isoformat w) (messages st)) in
  match disk w with
  | OpenRaises => (Raise OSError, fs)
  | WriteRaises written =>
      (Raise OSError, <[file_path (current_chat st) := Py.slice_to written text]> fs)
  | Written => (Ok (), <[file_path (current_chat st) := text]> fs)
  end.

(** The loop of [load_chat_history] over the listed files. *)
Fixpoint load_files (files : list (string * string)) (history : gmap string json)
  : result (gmap string json) :=
  match files with
  | [] => Ok history
  | (file, text) :: files' =>
      if Py.endswith ".json" file then
        v ← loads text;
        load_files files' (<[Py.slice_until_last 5 file := v]> history)
      else load_files files' history
  end.

Definition load_chat_history (fs : gmap string string) : result (gmap string json) :=
  load_files (map_to_list fs) ∅.

(** Line 100: every run of the script loads the history first. *)
Definition reload (st : session_state) (fs : gmap string string)
  : result session_state :=
  history ← load_chat_history fs;
  Ok {| messages := messages st; current_chat := current_chat st;
        chat_history := history; api_calls := api_calls st |}.

(** Line 156: [response.raise_for_status()] *)
Definition raise_for_status (r : response) : result unit :=
  if bool_decide (400 ≤ status_code r < 600)%Z then Raise (HTTPError (status_code r))
  else Ok ().

(** Lines 150-173: the request and the loop; the value of [full_response]
    when the loop ends. *)
Definition stream (p : provider) (w : world) : result string :=
  match post w with
  | PostRaises t => Raise (Transport t)
  | PostReturns r =>
      _ ← raise_for_status r;
      vars ← stream_loop p (JStr "", "") (iter_lines r);
      match interrupted r with
      | Some t => Raise (Transport t)
      | None => Ok vars.2
      end
  end.

(** Line 109 *)
Definition file_content (wd : widgets) : string :=
  match uploaded wd with
  | Some file => read_uploaded_file file
  | None => ""
  end.

(** Line 123 *)
Definition full_prompt (file_content prompt : string) : string :=
  if String.eqb file_content "" then prompt
  else file_content +:+ newline +:+ prompt.

(** The messages of lines 124 and 176. *)
Definition user_message (text : string) : message :=
  {| role := "user"; content := text |}.
Definition assistant_message (text : string) : message :=
  {| role := "assistant"; content := text |}.

(** Which of the two [except] clauses catches [e]. *)
Definition reported (e : exn) : outcome :=
  match e with
  | HTTPError c => ApiError c
  | _ => Failed e
  end.

(** Lines 179-192: both handlers report the error and pop the last message. *)
Definition handle (e : exn) (st : session_state) (fs : gmap string string)
  : outcome * session_state * gmap string string :=
  match messages_pop st with
  | Raise e' => (Uncaught e', st, fs)
  | Ok st' => (reported e, st', fs)
  end.

(** Lines 145-192: the request, the loop and the two handlers, run on the
    state that holds the user message. *)
Definition answer (wd : widgets) (w : world) (st : session_state)
    (fs : gmap string string) : outcome * session_state * gmap string string :=
  match stream (api_provider wd) w with
  | Raise e => handle e st fs
  | Ok full_response =>
      let st := messages_append (assistant_message full_response) st in
      match save_chat_history w st fs with
      | (Raise e, fs') => handle e st fs'
      | (Ok _, fs') => (Answered full_response, st, fs')
      end
  end.

(** Lines 116-192: the body of the handler for the prompt entered. *)
Definition respond (prompt : string) (wd : widgets) (w : world)
    (st : session_state) (fs : gmap string string)
  : outcome * session_state * gmap string string :=
  let r := check_rate_limit (now w) st in
  if negb r.1 then (RateLimited, r.2, fs)
  else if String.eqb (api_key wd) "" then (MissingApiKey, r.2, fs)
  else
    answer wd w
      (messages_append (user_message (full_prompt (file_content wd) prompt)) r.2) fs.

(** Lines 115-192: what happens when the script runs; the handler runs when
    the prompt is not empty. *)
Definition chat (wd : widgets) (w : world) (st : session_state)
    (fs : gmap string string) : outcome * session_state * gmap string string :=
  match chat_input wd with
  | None | Some "" => (Idle, st, fs)
  | Some prompt => respond prompt wd w st fs
  end.

(** Several runs of the script, one after the other. *)
Fixpoint chats (runs : list (widgets * world)) (st : session_state)
    (fs : gmap string string)
  : list outcome * session_state * gmap string string :=
  match runs with
  | [] => ([], st, fs)
  | (wd, w) :: runs' =>
      let r := chat wd w st fs in
      let rs := chats runs' r.1.2 r.2 in
      (r.1.1 :: rs.1.1, rs.1.2, rs.2)
  end.

(** Lines 102-106: the button that starts a new chat.  An error of the save
    is not caught: the run ends there, with the files as the save left
    them. *)
Definition new_chat (uuid4 : string) (w : world) (st : session_state)
    (fs : gmap string string) : result session_state * gmap string string :=
  match save_chat_history w st fs with
  | (Raise e, fs') => (Raise e, fs')
  | (Ok _, fs') =>
      (Ok {| messages := []; current_chat := uuid4;
             chat_history := chat_history st; api_calls := api_calls st |}, fs')
  end.

End Script.

(** ** Frames, payloads and deltas *)

(** The text a decoded, non-empty frame hands to [json.loads], if any: the
    first branch parses a frame only when it starts with the marker. *)
Definition frame_payload (p : provider) (s : string) : option string :=
  match p with
  | OpenRouter =>
      if Py.startswith "data: " (Py.strip s)
      then Some (Py.slice_from 6 (Py.strip s)) else None
  | DeepSeekDirect => Some (Py.lstrip "data: " s)
  end.

(** The delta of a payload, after the words of the specification: the text
    at the path [choices[0].delta.content], when the payload has that path. *)
Definition delta_content (payload : json) : option string :=
  match payload with
  | JObj d =>
      match dict_get "choices" d with
      | Some (JArr (JObj choice :: _)) =>
          match dict_get "delta" choice with
          | Some (JObj delta) =>
              match dict_get "content" delta with
              | Some (JStr s) => Some s
              | _ => None
              end
          | _ => None
          end
      | _ => None
      end
  | _ => None
  end.

(** The in-order concatenation of the deltas of a list of payloads. *)
Fixpoint concat_deltas (payloads : list json) : string :=
  match payloads with
  | [] => ""
  | v :: payloads' =>
      match delta_content v with Some d => d | None => "" end
      +:+ concat_deltas payloads'
  end.

Section Frames.
Context `{!JsonModule}.

(** The payload a frame parses to, if it is parsed at all. *)
Definition parsed_frame (p : provider) (c : chunk) : option json :=
  match c with
  | Decodes s => if chunk_nonempty c then frame_payload p s ≫= json_loads else None
  | Undecodable => None
  end.

(** The payloads of the frames of a stream that parse, in order. *)
Definition parsed_frames (p : provider) (chunks : list chunk) : list json :=
  omap (parsed_frame p) chunks.

End Frames.

(** ** Runs of the rate limiter *)

(** The state after calls of [check_rate_limit] at the given times. *)
Fixpoint admits (times : list Q) (st : session_state) : session_state :=
  match times with
  | [] => st
  | now :: times' => admits times' (check_rate_limit now st).2
  end.

(** The times, among the given ones, at which [check_rate_limit] returned
    [True]. *)
Fixpoint admitted (times : list Q) (st : session_state) : list Q :=
  match times with
  | [] => []
  | now :: times' =>
      let r := check_rate_limit now st in
      (if r.1 then [now] else []) ++ admitted times' r.2
  end.

(** The clock does not run backwards: [last] and then [times]. *)
Fixpoint chronological_from (last : Q) (times : list Q) : Prop :=
  match times with
  | [] => True
  | t :: times' => (last <= t)%Q ∧ chronological_from t times'
  end.

Definition chronological (times : list Q) : Prop :=
  match times with
  | [] => True
  | t :: times' => chronological_from t times'
  end.

(** The timestamps of [l] in the 60 seconds that end at [T]. *)
Definition in_window (T : Q) (l : list Q) : list Q :=
  List.filter (λ t, Qgtb t (T - 60) && Qle_bool t T) l.

(** What links the window to the history of admitted calls: the window is
    the part of the history that is younger than 60 seconds at the time
    [last] of the last call, the history lies in the past, the window holds
    at most 10 entries and so does every 60-second interval of the history. *)
Record window_inv (last : Q) (history window : list Q) : Prop := {
  inv_window : window = prune last history;
  inv_past : ∀ t, t ∈ history → (t <= last)%Q;
  inv_length : length window ≤ 10;
  inv_count : ∀ T, length (in_window T history) ≤ 10
}.

(** ** The run of the script around the handler *)

Section Run.
Context `{!JsonModule}.

(** A run of the script in which the button is not pressed: the history is
    loaded (line 100), which ends the run when it raises, and then the
    handler runs (lines 108-192). *)
Definition script (wd : widgets) (w : world) (st : session_state)
    (fs : gmap string string) : outcome * session_state * gmap string string :=
  match reload st fs with
  | Raise e => (Uncaught e, st, fs)
  | Ok st1 => chat wd w st1 fs
  end.

(** The payload that lines 169-172 look at, for each non-empty frame of a
    stream whose frames decode and parse: the payload of the frame when the
    provider branch parses it, the payload of an earlier frame when it does
    not. *)
Fixpoint looked_at (p : provider) (chunk_json : json) (chunks : list chunk)
  : list json :=
  match chunks with
  | [] => []
  | c :: chunks' =>
      if chunk_nonempty c then
        let current :=
          match c with
          | Decodes s =>
              match frame_payload p s ≫= json_loads with
              | Some v => v
              | None => chunk_json
              end
          | Undecodable => chunk_json
          end in
        current :: looked_at p current chunks'
      else looked_at p chunk_json chunks'
  end.

End Run.

(** The widgets with another state of the file uploader. *)
Definition with_upload (u : option uploaded_file) (wd : widgets) : widgets :=
  {| api_provider := api_provider wd; api_key := api_key wd;
     uploaded := u; chat_input := chat_input wd |}.


(** ** Concrete streams and runs, for the examples *)

Module Scenario.

(** The text of a payload with one delta, as the providers send it. *)
Definition payload (d : string) : string :=
  Json.text ("{'choices':[{'delta':{'content':'" +:+ d +:+ "'}}]}").

(** A session that has just started. *)
Definition fresh : session_state := initial_state "chat-1".

Definition typed (p : provider) (prompt : string) : widgets :=
  {| api_provider := p; api_key := "sk-test"; uploaded := None;
     chat_input := Some prompt |}.

Definition attached (file : uploaded_file) (wd : widgets) : widgets :=
  {| api_provider := api_provider wd; api_key := api_key wd;
     uploaded := Some file; chat_input := chat_input wd |}.

Definition text_file (body : string) : uploaded_file :=
  {| type := "text/plain"; read_decode := Some body; paragraphs := None |}.

(** The server answers with the given status and body; the disk works. *)
Definition replies (status : Z) (lines : list chunk) : world :=
  {| now := 100; isoformat := "2024-05-01T12:00:00";
     post := PostReturns
               {| status_code := status; iter_lines := lines; interrupted := None |};
     disk := Written |}.

Definition at_time (t : Q) (w : world) : world :=
  {| now := t; isoformat := isoformat w; post := post w; disk := disk w |}.

Definition read_only_disk (w : world) : world :=
  {| now := now w; isoformat := isoformat w; post := post w; disk := OpenRaises |}.

(** The disk fills up after [written] characters of the write. *)
Definition full_disk (written : nat) (w : world) : world :=
  {| now := now w; isoformat := isoformat w; post := post w;
     disk := WriteRaises written |}.

End Scenario.

(** * Properties *)

(** ** The rate limiter *)

Lemma Qgtb_true (x y : Q) : Qgtb x y = true ↔ (y < x)%Q.
Proof.
  unfold Qgtb. rewrite negb_true_iff. split.
  - intros Hle. apply Qnot_le_lt. intros Hxy.
    apply Qle_bool_iff in Hxy. congruence.
  - intros Hlt. destruct (Qle_bool x y) eqn:E; [|done].
    apply Qle_bool_iff in E. apply Qlt_not_le in Hlt. done.
Qed.

Lemma elem_of_prune (now t : Q) (calls : list Q) :
  t ∈ prune now calls ↔ t ∈ calls ∧ (now - 60 < t)%Q.
Proof.
  unfold prune. rewrite !list_elem_of_In, filter_In, Qgtb_true. done.
Qed.

Lemma prune_all_recent (now : Q) (calls : list Q) :
  (∀ t, t ∈ calls → (now - 60 < t)%Q) → prune now calls = calls.
Proof.
  induction calls as [|t calls IH]; intros Hall; [done|]. simpl.
  assert (Qgtb t (now - 60) = true) as ->
    by (apply Qgtb_true, Hall; left).
  f_equal. apply IH. intros t' Ht'. apply Hall. by right.
Qed.

Lemma prune_prune (now now' : Q) (calls : list Q) :
  (now <= now')%Q → prune now' (prune now calls) = prune now' calls.
Proof.
  intros Hle. induction calls as [|t calls IH]; [done|]. simpl.
  destruct (Qgtb t (now - 60)) eqn:E; simpl.
  - by rewrite IH.
  - destruct (Qgtb t (now' - 60)) eqn:E'; [|done].
    apply Qgtb_true in E'.
    assert (Qgtb t (now - 60) = true) by (apply Qgtb_true; lra).
    congruence.
Qed.

Lemma prune_app (now : Q) (l1 l2 : list Q) :
  prune now (l1 ++ l2) = prune now l1 ++ prune now l2.
Proof. apply List.filter_app. Qed.

Lemma prune_now (now : Q) : prune now [now] = [now].
Proof.
  apply prune_all_recent. intros t Ht.
  apply list_elem_of_singleton in Ht as ->. lra.
Qed.

Lemma check_rate_limit_reject (now : Q) (st : session_state) :
  10 ≤ length (prune now (api_calls st)) →
  check_rate_limit now st = (false, set_api_calls (prune now (api_calls st)) st).
Proof.
  intros Hlen. unfold check_rate_limit. cbn [api_calls set_api_calls].
  by apply Nat.leb_le in Hlen as ->.
Qed.

Lemma check_rate_limit_accept (now : Q) (st : session_state) :
  length (prune now (api_calls st)) < 10 →
  check_rate_limit now st =
    (true, set_api_calls (prune now (api_calls st) ++ [now]) st).
Proof.
  intros Hlen. unfold check_rate_limit. cbn [api_calls set_api_calls].
  by apply Nat.leb_gt in Hlen as ->.
Qed.

Lemma check_rate_limit_messages (now : Q) (st : session_state) :
  messages (check_rate_limit now st).2 = messages st
  ∧ current_chat (check_rate_limit now st).2 = current_chat st.
Proof. unfold check_rate_limit. simpl. by case_match. Qed.

Lemma filter_length_mono {A} (p q : A → bool) (l : list A) :
  (∀ x, p x = true → q x = true) →
  length (List.filter p l) ≤ length (List.filter q l).
Proof.
  intros Hpq. induction l as [|x l IH]; [done|]. simpl.
  destruct (p x) eqn:Ep.
  - rewrite (Hpq x Ep). simpl. lia.
  - destruct (q x); simpl; lia.
Qed.

Lemma prune_length (now : Q) (l : list Q) : length (prune now l) ≤ length l.
Proof.
  induction l as [|t l IH]; [done|]. simpl.
  destruct (Qgtb t (now - 60)); simpl; lia.
Qed.

Lemma in_window_true (T t : Q) :
  Qgtb t (T - 60) && Qle_bool t T = true ↔ (T - 60 < t)%Q ∧ (t <= T)%Q.
Proof. by rewrite andb_true_iff, Qgtb_true, Qle_bool_iff. Qed.

Lemma in_window_le_prune (T now : Q) (l : list Q) :
  (now <= T)%Q → length (in_window T l) ≤ length (prune now l).
Proof.
  intros Hle. apply filter_length_mono. intros t Ht.
  apply in_window_true in Ht as [? ?]. apply Qgtb_true. lra.
Qed.

Lemma window_inv_step (last now : Q) (history : list Q) (st : session_state) :
  window_inv last history (api_calls st) →
  (last <= now)%Q →
  window_inv now
    (history ++ if (check_rate_limit now st).1 then [now] else [])
    (api_calls (check_rate_limit now st).2).
Proof.
  intros [Hw Hpast Hlen Hcount] Hle.
  assert (prune now (api_calls st) = prune now history) as Hpr
    by (rewrite Hw; by apply prune_prune).
  assert (∀ t, t ∈ history → (t <= now)%Q) as Hpast'
    by (intros t Ht; specialize (Hpast t Ht); lra).
  destruct (Nat.le_gt_cases 10 (length (prune now (api_calls st)))) as [Hfull|Hroom].
  - rewrite (check_rate_limit_reject _ _ Hfull). simpl. rewrite app_nil_r.
    split; [done|done| |done].
    etrans; [apply prune_length|exact Hlen].
  - rewrite (check_rate_limit_accept _ _ Hroom). simpl. split.
    + by rewrite prune_app, prune_now, Hpr.
    + intros t [Ht| ->%list_elem_of_singleton]%elem_of_app; [by apply Hpast'|lra].
    + rewrite length_app. simpl. lia.
    + intros T. unfold in_window. rewrite List.filter_app, length_app. simpl.
      destruct (Qgtb now (T - 60) && Qle_bool now T) eqn:E; simpl.
      * apply in_window_true in E as [_ HnowT].
        pose proof (in_window_le_prune T now history HnowT) as Hin.
        unfold in_window in Hin. rewrite <- Hpr in Hin. lia.
      * specialize (Hcount T). unfold in_window in Hcount. lia.
Qed.

Lemma last_cons_default {A} (l : list A) (x d : A) :
  List.last (x :: l) d = List.last l x.
Proof.
  revert x d. induction l as [|y l IH]; intros x d; [done|].
  change (List.last (x :: y :: l) d) with (List.last (y :: l) d).
  by rewrite (IH y d), (IH y x).
Qed.

Lemma window_inv_run (times : list Q) :
  ∀ (last : Q) (history : list Q) (st : session_state),
  window_inv last history (api_calls st) →
  chronological_from last times →
  window_inv (List.last times last) (history ++ admitted times st)
    (api_calls (admits times st)).
Proof.
  induction times as [|now times IH]; intros last history st Hinv Hchron.
  - simpl. by rewrite app_nil_r.
  - destruct Hchron as [Hle Hchron].
    pose proof (window_inv_step _ _ _ _ Hinv Hle) as Hstep.
    specialize (IH now _ _ Hstep Hchron).
    cbn [admitted admits]. rewrite app_assoc.
    by rewrite last_cons_default.
Qed.

Lemma window_inv_initial (last : Q) : window_inv last [] [].
Proof. split; simpl; [done| |lia|intros; lia]. intros t Ht. by apply elem_of_nil in Ht. Qed.

Lemma chronological_from_first (t : Q) (times : list Q) :
  chronological (t :: times) → chronological_from t (t :: times).
Proof. simpl. intros H. split; [apply Qle_refl|done]. Qed.

Lemma in_window_length (T : Q) (l : list Q) : length (in_window T l) ≤ length l.
Proof.
  induction l as [|t l IH]; [done|]. simpl.
  destruct (Qgtb t (T - 60) && Qle_bool t T); simpl; lia.
Qed.

Lemma check_rate_limit_length (now : Q) (st : session_state) :
  length (api_calls st) ≤ 10 →
  length (api_calls (check_rate_limit now st).2) ≤ 10.
Proof.
  intros Hlen. pose proof (prune_length now (api_calls st)) as Hpr.
  destruct (Nat.le_gt_cases 10 (length (prune now (api_calls st)))) as [Hfull|Hroom].
  - rewrite (check_rate_limit_reject _ _ Hfull). simpl. lia.
  - rewrite (check_rate_limit_accept _ _ Hroom). simpl. rewrite length_app. simpl. lia.
Qed.

Lemma check_rate_limit_recent (now : Q) (st : session_state) (t : Q) :
  t ∈ api_calls (check_rate_limit now st).2 → (now - 60 < t)%Q.
Proof.
  destruct (Nat.le_gt_cases 10 (length (prune now (api_calls st)))) as [Hfull|Hroom].
  - rewrite (check_rate_limit_reject _ _ Hfull). simpl.
    by intros [_ ?]%elem_of_prune.
  - rewrite (check_rate_limit_accept _ _ Hroom). simpl.
    intros [[_ ?]%elem_of_prune| ->%list_elem_of_singleton]%elem_of_app; [done|lra].
Qed.

Lemma admits_app (l1 l2 : list Q) (st : session_state) :
  admits (l1 ++ l2) st = admits l2 (admits l1 st).
Proof. revert st. induction l1 as [|t l1 IH]; intros st; [done|]. apply IH. Qed.

Lemma admits_length (times : list Q) (st : session_state) :
  length (api_calls st) ≤ 10 → length (api_calls (admits times st)) ≤ 10.
Proof.
  revert st. induction times as [|t times IH]; intros st Hlen; [done|].
  apply IH. by apply check_rate_limit_length.
Qed.

(** C2, as the code has it.  Whatever the times of the calls of
    [check_rate_limit] on a session: after every call the window holds at
    most 10 timestamps, so no interval holds more than 10 of them, and each
    of them is later than [now - 60].  When the clock does not run backwards
    between the calls, the timestamps of the window are not later than
    [now] either, and of all the timestamps admitted so far no interval of
    60 seconds that is open at its start holds more than 10.  An interval
    that is closed at both ends can hold 20: ten calls at time 0 and ten
    calls at time 60 are all admitted. *)
Theorem rate_window_invariant :
  (∀ (uuid4 : string) (times : list Q) (now : Q),
     let st := admits (times ++ [now]) (initial_state uuid4) in
     length (api_calls st) ≤ 10
     ∧ (∀ T, length (in_window T (api_calls st)) ≤ 10)
     ∧ (∀ t, t ∈ api_calls st → (now - 60 < t)%Q)
     ∧ (chronological (times ++ [now]) →
        (∀ t, t ∈ api_calls st → (now - 60 < t)%Q ∧ (t <= now)%Q)
        ∧ (∀ T, length (in_window T
                  (admitted (times ++ [now]) (initial_state uuid4))) ≤ 10)))
  ∧ (∀ uuid4 : string,
       let times := repeat 0%Q 10 ++ repeat 60%Q 10 in
       chronological times
       ∧ admitted times (initial_state uuid4) = times
       ∧ length times = 20
       ∧ Forall (λ t, (60 - 60 <= t)%Q ∧ (t <= 60)%Q) times).
Proof.
  split.
  - intros uuid4 times now st.
    assert (length (api_calls st) ≤ 10) as Hlen10
      by (apply admits_length; simpl; lia).
    split; [exact Hlen10|]. split; [|split].
    + intros T. etrans; [apply in_window_length|exact Hlen10].
    + intros t. unfold st. rewrite admits_app. simpl. apply check_rate_limit_recent.
    + intros Hchron.
      set (t0 := hd now (times ++ [now])).
      assert (chronological_from t0 (times ++ [now])) as Hfrom.
      { subst t0. destruct times; simpl; (split; [apply Qle_refl|exact Hchron]). }
      pose proof (window_inv_run (times ++ [now]) t0 [] (initial_state uuid4)
                    (window_inv_initial t0) Hfrom) as [Hw Hpast Hlen Hcount].
      rewrite List.last_last in Hw, Hpast. simpl in Hcount, Hpast.
      split; [|exact Hcount].
      intros t Ht. unfold st in Ht. rewrite Hw in Ht.
      apply elem_of_prune in Ht as [Ht ?]. split; [lra|]. by apply Hpast.
  - intros uuid4 times. split; [|split; [|split]].
    + simpl. repeat split; lra.
    + vm_compute. reflexivity.
    + reflexivity.
    + simpl. repeat (apply Forall_cons; split; [lra|]). by apply Forall_nil.
Qed.

(** ** The handler and the rate window *)

Section Handler.
Context `{!JsonModule}.

Lemma chat_respond (wd : widgets) (w : world) (st : session_state)
    (fs : gmap string string) (prompt : string) :
  chat_input wd = Some prompt → prompt ≠ "" →
  chat wd w st fs = respond prompt wd w st fs.
Proof. intros Hin Hne. unfold chat. rewrite Hin. by destruct prompt. Qed.

Lemma handle_outcome (e : exn) (st : session_state) (fs : gmap string string) :
  messages st ≠ [] →
  handle e st fs = (reported e, set_messages (removelast (messages st)) st, fs).
Proof. intros Hne. unfold handle, messages_pop. by destruct (messages st). Qed.

Lemma handle_api_calls (e : exn) (st : session_state) (fs : gmap string string) :
  api_calls (handle e st fs).1.2 = api_calls st ∧ (handle e st fs).1.1 ≠ RateLimited.
Proof. unfold handle, messages_pop. by destruct (messages st), e. Qed.

Lemma answer_api_calls (wd : widgets) (w : world) (st : session_state)
    (fs : gmap string string) :
  api_calls (answer wd w st fs).1.2 = api_calls st
  ∧ (answer wd w st fs).1.1 ≠ RateLimited.
Proof.
  unfold answer. destruct (stream _ _); [|apply handle_api_calls].
  destruct (save_chat_history _ _ _) as [[|e] fs']; [done|].
  apply (handle_api_calls e (messages_append _ st)).
Qed.

(** Every run of the handler calls [check_rate_limit] once, and nothing else
    touches the window. *)
Lemma respond_api_calls (prompt : string) (wd : widgets) (w : world)
    (st : session_state) (fs : gmap string string) :
  api_calls (respond prompt wd w st fs).1.2
  = api_calls (check_rate_limit (now w) st).2.
Proof.
  unfold respond. destruct (check_rate_limit _ _) as [[] st1]; simpl; [|done].
  destruct (String.eqb _ _); [done|]. by rewrite (proj1 (answer_api_calls _ _ _ _)).
Qed.

Lemma respond_rate_limited (prompt : string) (wd : widgets) (w : world)
    (st : session_state) (fs : gmap string string) :
  (check_rate_limit (now w) st).1 = true →
  (respond prompt wd w st fs).1.1 ≠ RateLimited.
Proof.
  unfold respond. intros ->. simpl.
  destruct (String.eqb _ _); [done|]. apply answer_api_calls.
Qed.

Lemma respond_rejected (prompt : string) (wd : widgets) (w : world)
    (st : session_state) (fs : gmap string string) :
  10 ≤ length (prune (now w) (api_calls st)) →
  respond prompt wd w st fs
  = (RateLimited, set_api_calls (prune (now w) (api_calls st)) st, fs).
Proof. intros Hfull. unfold respond. by rewrite (check_rate_limit_reject _ _ Hfull). Qed.

Lemma set_api_calls_id (st : session_state) : set_api_calls (api_calls st) st = st.
Proof. by destruct st. Qed.

(** Calls that all fall in one minute and find room in the window are all
    admitted, and none of the earlier entries is pruned. *)
Lemma admits_within_minute (bound : Q) (times : list Q) :
  ∀ st : session_state,
  (∀ t, t ∈ api_calls st → (bound - 60 < t)%Q) →
  (∀ t, t ∈ times → (bound - 60 < t)%Q ∧ (t <= bound)%Q) →
  length (api_calls st) + length times ≤ 10 →
  admitted times st = times
  ∧ admits times st = set_api_calls (api_calls st ++ times) st.
Proof.
  induction times as [|now times IH]; intros st Hw Ht Hlen.
  - simpl. by rewrite app_nil_r, set_api_calls_id.
  - simpl in Hlen.
    assert (prune now (api_calls st) = api_calls st) as Hpr.
    { apply prune_all_recent. intros t Hin. specialize (Hw t Hin).
      destruct (Ht now) as [_ ?]; [left|]. lra. }
    cbn [admitted admits].
    rewrite check_rate_limit_accept by (rewrite Hpr; lia). rewrite Hpr. simpl.
    destruct (IH (set_api_calls (api_calls st ++ [now]) st)) as [-> ->].
    + simpl. intros t [?| ->%list_elem_of_singleton]%elem_of_app; [by apply Hw|].
      apply Ht. left.
    + intros t Hin. apply Ht. by right.
    + simpl. rewrite length_app. simpl. lia.
    + simpl. split; [done|]. unfold set_api_calls. simpl. by rewrite <- app_assoc.
Qed.

Lemma admits_window_only (times : list Q) :
  ∀ a b : session_state,
  api_calls a = api_calls b →
  api_calls (admits times a) = api_calls (admits times b)
  ∧ admitted times a = admitted times b.
Proof.
  induction times as [|t times IH]; intros a b Hab; [done|].
  cbn [admits admitted].
  assert ((check_rate_limit t a).1 = (check_rate_limit t b).1
          ∧ api_calls (check_rate_limit t a).2 = api_calls (check_rate_limit t b).2)
    as [H1 H2].
  { unfold check_rate_limit. cbn [api_calls set_api_calls]. rewrite Hab.
    by destruct (10 <=? length (prune t (api_calls b))). }
  rewrite H1. by destruct (IH _ _ H2) as [-> ->].
Qed.

Lemma admitted_length (times : list Q) (st : session_state) :
  length (admitted times st) ≤ length times.
Proof.
  revert st. induction times as [|t times IH]; intros st; [done|].
  cbn [admitted]. rewrite length_app.
  specialize (IH (check_rate_limit t st).2).
  destruct (check_rate_limit t st).1; simpl; lia.
Qed.

(** The window after several runs of the handler is the window after the
    calls of [check_rate_limit] at the times of the runs. *)
Lemma chats_api_calls (runs : list (widgets * world)) :
  ∀ (st : session_state) (fs : gmap string string),
  Forall (λ r, ∃ prompt, chat_input r.1 = Some prompt ∧ prompt ≠ "") runs →
  api_calls (chats runs st fs).1.2 = api_calls (admits (now ∘ snd <$> runs) st)
  ∧ (admitted (now ∘ snd <$> runs) st = (now ∘ snd <$> runs) →
     Forall (λ out, out ≠ RateLimited) (chats runs st fs).1.1).
Proof.
  induction runs as [|[wd w] runs IH]; intros st fs Hruns; [by split|].
  apply Forall_cons in Hruns as [(prompt & Hin & Hne) Hruns].
  simpl in Hin. simpl. rewrite (chat_respond _ _ _ _ _ Hin Hne).
  pose proof (respond_api_calls prompt wd w st fs) as Hcalls.
  pose proof (respond_rate_limited prompt wd w st fs) as Hout.
  set (r := respond prompt wd w st fs) in *. clearbody r.
  destruct r as [[out st1] fs1]. simpl in *.
  destruct (IH st1 fs1 Hruns) as [IH1 IH2].
  destruct (admits_window_only (now ∘ snd <$> runs) _ _ Hcalls) as [Hs1 Hs2].
  unfold fmap in *.
  split; [by rewrite IH1|].
  intros Hadm. rewrite <- Hs2 in Hadm.
  destruct (check_rate_limit (now w) st).1 eqn:E.
  - simpl in Hadm. apply Forall_cons. split; [by apply Hout|].
    apply IH2. by injection Hadm.
  - simpl in Hadm. exfalso.
    pose proof (admitted_length (now ∘ snd <$> runs) st1) as Hlen.
    unfold fmap in Hlen. rewrite Hadm in Hlen. simpl in Hlen. lia.
Qed.

Lemma set_messages_id (st : session_state) : set_messages (messages st) st = st.
Proof. by destruct st. Qed.

(** A failure while the user message is the last one of the log gives the
    log back as it was. *)
Lemma handle_after_append (e : exn) (m : message) (st : session_state)
    (fs : gmap string string) :
  handle e (messages_append m st) fs = (reported e, st, fs).
Proof.
  rewrite handle_outcome by (simpl; by destruct (messages st)).
  simpl. rewrite removelast_last. unfold set_messages. simpl. by destruct st.
Qed.

Lemma answer_stream_raises (wd : widgets) (w : world) (m : message)
    (st : session_state) (fs : gmap string string) (e : exn) :
  stream (api_provider wd) w = Raise e →
  answer wd w (messages_append m st) fs = (reported e, st, fs).
Proof. intros Hs. unfold answer. rewrite Hs. apply handle_after_append. Qed.

End Handler.

Section RateLimitClaims.
Context `{!JsonModule}.

(** C3, as the code has it.  [check_rate_limit] first prunes the window: an
    entry is kept exactly when it is less than 60 seconds old, so entries
    that are 60 seconds old or older go.  If 10 or more entries remain it
    returns [False] and the window is the pruned one; otherwise it appends
    the current time and returns [True].
    A submit that is rejected this way stops as [RateLimited]: the messages
    and the files are untouched.  After ten submits within one minute on a
    fresh session, none of them rejected, the eleventh within that minute is
    rejected and changes nothing at all. *)
Theorem admit_contract :
  (∀ (t_now : Q) (st : session_state),
     let kept := prune t_now (api_calls st) in
     (∀ t, t ∈ kept ↔ t ∈ api_calls st ∧ (t_now - 60 < t)%Q)
     ∧ (10 ≤ length kept →
        check_rate_limit t_now st = (false, set_api_calls kept st))
     ∧ (length kept < 10 →
        check_rate_limit t_now st = (true, set_api_calls (kept ++ [t_now]) st)))
  ∧ (∀ (wd : widgets) (w : world) (st : session_state)
       (fs : gmap string string) (prompt : string),
       chat_input wd = Some prompt → prompt ≠ "" →
       10 ≤ length (prune (now w) (api_calls st)) →
       chat wd w st fs
       = (RateLimited, set_api_calls (prune (now w) (api_calls st)) st, fs))
  ∧ (∀ (uuid4 : string) (runs : list (widgets * world)) (wd : widgets)
       (w : world) (fs : gmap string string),
       length runs = 10 →
       Forall (λ r, ∃ prompt, chat_input r.1 = Some prompt ∧ prompt ≠ "")
         (runs ++ [(wd, w)]) →
       Forall (λ r, (now w - 60 < now r.2)%Q ∧ (now r.2 <= now w)%Q) runs →
       let before := chats runs (initial_state uuid4) fs in
       Forall (λ out, out ≠ RateLimited) before.1.1
       ∧ chat wd w before.1.2 before.2 = (RateLimited, before.1.2, before.2)).
Proof.
  split; [|split].
  - intros t_now st kept. split; [intros t; apply elem_of_prune|].
    split; [apply check_rate_limit_reject|apply check_rate_limit_accept].
  - intros wd w st fs prompt Hin Hne Hfull.
    rewrite (chat_respond _ _ _ _ _ Hin Hne). by apply respond_rejected.
  - intros uuid4 runs wd w fs Hlen Hprompts Htimes before.
    apply Forall_app in Hprompts as [Hprompts Hlast].
    apply Forall_singleton in Hlast as (prompt & Hin & Hne). simpl in Hin.
    destruct (admits_within_minute (now w) (now ∘ snd <$> runs)
                (initial_state uuid4)) as [Hadm Hst].
    { intros t Ht. by apply elem_of_nil in Ht. }
    { intros t (r & -> & Hr)%list_elem_of_fmap.
      by apply (proj1 (Forall_forall _ _) Htimes). }
    { simpl. rewrite length_fmap. lia. }
    destruct (chats_api_calls runs (initial_state uuid4) fs Hprompts)
      as [Hcalls Houts].
    split; [by apply Houts|].
    fold before in Hcalls. rewrite Hst in Hcalls. simpl in Hcalls.
    assert (prune (now w) (api_calls before.1.2) = api_calls before.1.2) as Hpr.
    { apply prune_all_recent. rewrite Hcalls.
      intros t (r & -> & Hr)%list_elem_of_fmap.
      by apply (proj1 (Forall_forall _ _) Htimes). }
    rewrite (chat_respond _ _ _ _ _ Hin Hne), respond_rejected.
    + by rewrite Hpr, set_api_calls_id.
    + rewrite Hpr, Hcalls, length_fmap. lia.
Qed.

(** C10. The timestamp is recorded by [check_rate_limit] before the API key
    is looked at and before the request is sent: a submit that is admitted
    leaves the window with its timestamp appended however it ends, also when
    it stops for a missing API key and when the request or the stream fails;
    no error handler takes the timestamp out again. *)
Theorem timestamp_kept_on_failure (wd : widgets) (w : world)
    (st : session_state) (fs : gmap string string) (prompt : string) :
  chat_input wd = Some prompt → prompt ≠ "" →
  length (prune (now w) (api_calls st)) < 10 →
  let r := chat wd w st fs in
  api_calls r.1.2 = prune (now w) (api_calls st) ++ [now w]
  ∧ r.1.1 ≠ RateLimited
  ∧ (api_key wd = "" → r.1.1 = MissingApiKey)
  ∧ (api_key wd ≠ "" → ∀ e, stream (api_provider wd) w = Raise e →
     r.1.1 = reported e).
Proof.
  intros Hin Hne Hroom r. subst r.
  rewrite (chat_respond _ _ _ _ _ Hin Hne).
  pose proof (check_rate_limit_accept _ _ Hroom) as Hadmit.
  split; [by rewrite respond_api_calls, Hadmit|].
  split; [apply respond_rate_limited; by rewrite Hadmit|].
  unfold respond. rewrite Hadmit. simpl. split.
  - by intros ->.
  - intros Hkey e Hs. apply String.eqb_neq in Hkey as ->.
    by rewrite (answer_stream_raises _ _ _ _ _ _ Hs).
Qed.

End RateLimitClaims.

(** ** The streaming loop *)

Lemma string_app_cons (c : ascii) (s t : string) :
  String c s +:+ t = String c (s +:+ t).
Proof. reflexivity. Qed.

Lemma string_app_nil_r (s : string) : s +:+ "" = s.
Proof. induction s as [|c s IH]; [done|]. by rewrite string_app_cons, IH. Qed.

Lemma string_app_assoc (s1 s2 s3 : string) : (s1 +:+ s2) +:+ s3 = s1 +:+ s2 +:+ s3.
Proof. induction s1 as [|c s1 IH]; [done|]. by rewrite !string_app_cons, IH. Qed.

Section StreamingLoop.
Context `{!JsonModule}.

Lemma read_frame_payload (p : provider) (chunk_json : json) (s : string) :
  read_frame p chunk_json (Decodes s) =
    match frame_payload p s with
    | Some t => loads t
    | None => Ok chunk_json
    end.
Proof. destruct p; simpl; [done|]. by destruct (Py.startswith _ _). Qed.

(** A payload that has the path adds its delta. *)
Lemma add_delta_content (payload : json) (d acc : string) :
  delta_content payload = Some d → add_delta payload acc = Ok (acc +:+ d).
Proof.
  unfold delta_content, add_delta. intros Hd.
  repeat (case_match; simplify_eq/=; try done).
  all: repeat match goal with
       | H : dict_get _ _ = _ |- _ => rewrite H in *; clear H
       end; simpl; try done.
Qed.

(** When [add_delta] does not raise, it has added the delta of the payload,
    or nothing when the payload lacks the path. *)
Lemma add_delta_ok (payload : json) (acc acc' : string) :
  add_delta payload acc = Ok acc' →
  acc' = acc +:+ match delta_content payload with Some d => d | None => "" end.
Proof.
  unfold delta_content, add_delta, py_in, py_getitem, py_getitem_0, py_get,
    py_iadd. intros Hd.
  repeat (case_match; simplify_eq/=; try done);
    try (by rewrite string_app_nil_r);
    repeat match goal with
    | H : bool_decide _ = false |- _ => apply bool_decide_eq_false in H
    | H : ¬ is_Some (Some _) |- _ => by destruct H
    end.
Qed.

Lemma stream_loop_app (p : provider) (vars : json * string) (l1 l2 : list chunk) :
  stream_loop p vars (l1 ++ l2) =
    vars' ← stream_loop p vars l1; stream_loop p vars' l2.
Proof.
  revert vars. induction l1 as [|c l1 IH]; intros vars; [done|]. simpl.
  destruct (loop_body p vars c); simpl; [apply IH|done].
Qed.

End StreamingLoop.

Section StreamingClaims.
Context `{!JsonModule}.

Lemma loop_body_unparsable (p : provider) (vars : json * string) (s t : string) :
  s ≠ "" → frame_payload p s = Some t → json_loads t = None →
  loop_body p vars (Decodes s) = Raise JSONDecodeError.
Proof.
  intros Hne Hp Hl. unfold loop_body.
  assert (chunk_nonempty (Decodes s) = true) as -> by by destruct s.
  rewrite read_frame_payload, Hp. unfold loads. by rewrite Hl.
Qed.

Lemma loop_body_parsed (p : provider) (vars : json * string) (s t : string)
    (v : json) :
  s ≠ "" → frame_payload p s = Some t → json_loads t = Some v →
  loop_body p vars (Decodes s) = full ← add_delta v vars.2; Ok (v, full).
Proof.
  intros Hne Hp Hl. unfold loop_body.
  assert (chunk_nonempty (Decodes s) = true) as -> by by destruct s.
  rewrite read_frame_payload, Hp. unfold loads. by rewrite Hl.
Qed.

(** A frame the first branch does not parse leaves [chunk_json] as it was,
    and the lines after the branch look at that payload again. *)
Lemma loop_body_not_parsed (vars : json * string) (s : string) :
  s ≠ "" → frame_payload OpenRouter s = None →
  loop_body OpenRouter vars (Decodes s)
  = full ← add_delta vars.1 vars.2; Ok (vars.1, full).
Proof.
  intros Hne Hp. unfold loop_body.
  assert (chunk_nonempty (Decodes s) = true) as -> by by destruct s.
  by rewrite read_frame_payload, Hp.
Qed.

Lemma parsed_frames_cons (p : provider) (c : chunk) (chunks : list chunk) :
  parsed_frames p (c :: chunks) =
    match parsed_frame p c with
    | Some v => v :: parsed_frames p chunks
    | None => parsed_frames p chunks
    end.
Proof. reflexivity. Qed.

(** When every frame that is looked at is parsed, a loop that ends without
    raising has added the deltas of the parsed frames, one per frame and in
    order.  Every frame is parsed in the second branch of the loop. *)
Lemma stream_loop_concatenates (p : provider) (chunks : list chunk) :
  Forall (λ c, ∀ s, c = Decodes s → s ≠ "" → is_Some (frame_payload p s)) chunks →
  ∀ vars vars', stream_loop p vars chunks = Ok vars' →
  vars'.2 = vars.2 +:+ concat_deltas (parsed_frames p chunks).
Proof.
  induction chunks as [|c chunks IH]; intros Hall vars vars' Hloop.
  - simpl in *. injection Hloop as <-. by rewrite string_app_nil_r.
  - apply Forall_cons in Hall as [Hc Hall]. simpl in Hloop.
    destruct (loop_body p vars c) as [vars1|] eqn:Hbody; [|done].
    simpl in Hloop. rewrite (IH Hall _ _ Hloop), parsed_frames_cons.
    destruct c as [s|]; [|by destruct p].
    destruct (decide (s = "")) as [->|Hne].
    { simpl in *. by injection Hbody as <-. }
    destruct (Hc s eq_refl Hne) as [t Ht].
    assert (chunk_nonempty (Decodes s) = true) as Hnonempty by by destruct s.
    unfold parsed_frame. rewrite Hnonempty, Ht. simpl.
    destruct (json_loads t) as [v|] eqn:Hl.
    + rewrite (loop_body_parsed _ _ _ _ _ Hne Ht Hl) in Hbody.
      destruct (add_delta v vars.2) as [full|] eqn:Hadd; [|done].
      injection Hbody as <-. simpl.
      rewrite (add_delta_ok _ _ _ Hadd). by rewrite string_app_assoc.
    + by rewrite (loop_body_unparsable _ _ _ _ Hne Ht Hl) in Hbody.
Qed.

Lemma stream_loop_deepseek (chunks : list chunk) (vars vars' : json * string) :
  stream_loop DeepSeekDirect vars chunks = Ok vars' →
  vars'.2 = vars.2 +:+ concat_deltas (parsed_frames DeepSeekDirect chunks).
Proof.
  apply stream_loop_concatenates. apply Forall_forall. intros c _ s _ _. by eexists.
Qed.

Lemma stream_loop_unparsable (p : provider) (vars0 vars : json * string)
    (before after : list chunk) (s t : string) :
  stream_loop p vars0 before = Ok vars →
  s ≠ "" → frame_payload p s = Some t → json_loads t = None →
  stream_loop p vars0 (before ++ Decodes s :: after) = Raise JSONDecodeError.
Proof.
  intros Hb Hne Hp Hl. rewrite stream_loop_app, Hb. simpl.
  by rewrite (loop_body_unparsable _ _ _ _ Hne Hp Hl).
Qed.

Lemma writable_true (w : world) : writable w = true ↔ disk w = Written.
Proof. unfold writable. by destruct (disk w). Qed.

(** The state after the rate check of an admitted submit. *)
Lemma respond_stream_raises (prompt : string) (wd : widgets) (w : world)
    (st : session_state) (fs : gmap string string) (e : exn) :
  length (prune (now w) (api_calls st)) < 10 → api_key wd ≠ "" →
  stream (api_provider wd) w = Raise e →
  respond prompt wd w st fs
  = (reported e, set_api_calls (prune (now w) (api_calls st) ++ [now w]) st, fs).
Proof.
  intros Hadm Hkey Hs. unfold respond.
  rewrite (check_rate_limit_accept _ _ Hadm). simpl.
  apply String.eqb_neq in Hkey as ->. by apply answer_stream_raises.
Qed.

Lemma respond_stream_ok (prompt : string) (wd : widgets) (w : world)
    (st : session_state) (fs : gmap string string) (text : string) :
  length (prune (now w) (api_calls st)) < 10 → api_key wd ≠ "" →
  stream (api_provider wd) w = Ok text →
  let st1 := set_api_calls (prune (now w) (api_calls st) ++ [now w]) st in
  let user := user_message (full_prompt (file_content wd) prompt) in
  let saved := json_dumps (history_record (isoformat w)
                             (messages st ++ [user; assistant_message text])) in
  respond prompt wd w st fs =
    match disk w with
    | Written =>
        (Answered text,
         set_messages (messages st ++ [user; assistant_message text]) st1,
         <[file_path (current_chat st) := saved]> fs)
    | WriteRaises written =>
        (Failed OSError, set_messages (messages st ++ [user]) st1,
         <[file_path (current_chat st) := Py.slice_to written saved]> fs)
    | OpenRaises =>
        (Failed OSError, set_messages (messages st ++ [user]) st1, fs)
    end.
Proof.
  intros Hadm Hkey Hs st1 user saved. subst st1 user saved. unfold respond.
  rewrite (check_rate_limit_accept _ _ Hadm). simpl.
  apply String.eqb_neq in Hkey as ->. unfold answer. rewrite Hs.
  unfold save_chat_history. destruct (disk w).
  - by rewrite handle_after_append.
  - rewrite handle_after_append. unfold messages_append, set_messages. simpl.
    by rewrite <- app_assoc.
  - unfold messages_append, set_messages. simpl. by rewrite <- app_assoc.
Qed.

(** The [pop] of the handlers never meets an empty log. *)
Lemma chat_caught (wd : widgets) (w : world) (st : session_state)
    (fs : gmap string string) (e : exn) :
  (chat wd w st fs).1.1 ≠ Uncaught e.
Proof.
  unfold chat. destruct (chat_input wd) as [prompt|]; [|done].
  destruct prompt as [|c prompt]; [done|].
  unfold respond. destruct (check_rate_limit _ _) as [[] st1]; simpl; [|done].
  destruct (String.eqb _ _); [done|].
  unfold answer. destruct (stream _ _) as [text|e'].
  - destruct (save_chat_history _ _ _) as [[|e0] fs']; [done|].
    rewrite handle_after_append. by destruct e0.
  - rewrite handle_after_append. by destruct e'.
Qed.

(** What a run that ends as [Answered] has gone through. *)
Lemma chat_answered_inv (wd : widgets) (w : world) (st st' : session_state)
    (fs fs' : gmap string string) (text : string) :
  chat wd w st fs = (Answered text, st', fs') →
  ∃ prompt,
    chat_input wd = Some prompt ∧ prompt ≠ ""
    ∧ length (prune (now w) (api_calls st)) < 10 ∧ api_key wd ≠ ""
    ∧ stream (api_provider wd) w = Ok text ∧ writable w = true.
Proof.
  unfold chat. destruct (chat_input wd) as [prompt|]; [|done].
  destruct (decide (prompt = "")) as [->|Hne]; [done|].
  replace (match prompt with "" => (Idle, st, fs) | _ => respond prompt wd w st fs end)
    with (respond prompt wd w st fs) by by destruct prompt.
  intros Hr. exists prompt. split; [done|]. split; [done|].
  destruct (Nat.le_gt_cases 10 (length (prune (now w) (api_calls st))))
    as [Hfull|Hroom].
  { by rewrite respond_rejected in Hr. }
  split; [done|].
  destruct (decide (api_key wd = "")) as [Hk|Hk].
  { unfold respond in Hr. rewrite (check_rate_limit_accept _ _ Hroom) in Hr.
    simpl in Hr. by rewrite Hk in Hr. }
  split; [done|].
  destruct (stream (api_provider wd) w) as [text'|e] eqn:Hs.
  - rewrite (respond_stream_ok _ _ _ _ _ _ Hroom Hk Hs) in Hr.
    unfold writable. destruct (disk w); [done|done|]. by injection Hr as -> _ _.
  - rewrite (respond_stream_raises _ _ _ _ _ _ Hroom Hk Hs) in Hr.
    by destruct e.
Qed.

End StreamingClaims.

Section HandlerClaims.
Context `{!JsonModule}.

Lemma stream_returns (p : provider) (w : world) (r : response) :
  post w = PostReturns r → raise_for_status r = Ok () →
  interrupted r = None →
  stream p w = vars ← stream_loop p (JStr "", "") (iter_lines r); Ok vars.2.
Proof.
  intros Hp Hs Hi. unfold stream. rewrite Hp, Hs, Hi. simpl.
  by destruct (stream_loop _ _ _).
Qed.

Lemma stream_loop_raises (p : provider) (w : world) (r : response) (e : exn) :
  post w = PostReturns r → raise_for_status r = Ok () →
  stream_loop p (JStr "", "") (iter_lines r) = Raise e →
  stream p w = Raise e.
Proof. intros Hp Hs Hl. unfold stream. by rewrite Hp, Hs, Hl. Qed.

(** C4, as the code has it.  A frame whose payload [json.loads] rejects is
    not skipped: the loop raises [JSONDecodeError] at that frame, whatever
    frames follow; the handler of line 190 reports the error and pops the
    user message, so the submit ends as a failure with the log as it was and
    nothing saved.  Only the first branch of the loop leaves frames
    unparsed: those that do not start with the marker keep the payload
    variable as it was. *)
Theorem unparsable_frame_aborts (p : provider) (before after : list chunk)
    (vars : json * string) (s t : string) :
  stream_loop p (JStr "", "") before = Ok vars →
  s ≠ "" → frame_payload p s = Some t → json_loads t = None →
  stream_loop p (JStr "", "") (before ++ Decodes s :: after) = Raise JSONDecodeError
  ∧ (∀ (wd : widgets) (w : world) (st : session_state)
       (fs : gmap string string) (prompt : string) (r : response),
       api_provider wd = p →
       chat_input wd = Some prompt → prompt ≠ "" →
       length (prune (now w) (api_calls st)) < 10 → api_key wd ≠ "" →
       post w = PostReturns r → raise_for_status r = Ok () →
       iter_lines r = before ++ Decodes s :: after →
       chat wd w st fs
       = (Failed JSONDecodeError,
          set_api_calls (prune (now w) (api_calls st) ++ [now w]) st, fs))
  ∧ (∀ (chunk_json : json) (s' : string),
       Py.startswith "data: " (Py.strip s') = false →
       read_frame OpenRouter chunk_json (Decodes s') = Ok chunk_json).
Proof.
  intros Hb Hne Hp Hl.
  pose proof (stream_loop_unparsable _ _ _ _ after _ _ Hb Hne Hp Hl) as Hloop.
  split; [exact Hloop|]. split.
  - intros wd w st fs prompt r <- Hin Hpne Hroom Hkey Hpost Hstatus Hlines.
    rewrite (chat_respond _ _ _ _ _ Hin Hpne).
    rewrite (respond_stream_raises _ _ _ _ _ JSONDecodeError Hroom Hkey); [done|].
    apply (stream_loop_raises _ _ r); [done|done|]. by rewrite Hlines.
  - intros chunk_json s' Hs'. simpl. by rewrite Hs'.
Qed.

(** C6, as the code has it.  In a submit that is answered, the user message
    that is stored and saved holds the extracted file content, a newline and
    the typed text when the extracted content is not empty; it holds just
    the typed text when no file is attached, and also when a file is attached
    whose extracted content is empty. *)
Theorem user_content_composition (wd : widgets) (w : world)
    (st st' : session_state) (fs fs' : gmap string string)
    (prompt text : string) :
  chat_input wd = Some prompt →
  chat wd w st fs = (Answered text, st', fs') →
  ∃ user_content,
    messages st' = messages st ++ [user_message user_content; assistant_message text]
    ∧ fs' !! file_path (current_chat st)
      = Some (json_dumps (history_record (isoformat w)
                (messages st ++ [user_message user_content; assistant_message text])))
    ∧ (file_content wd ≠ "" → user_content = file_content wd +:+ newline +:+ prompt)
    ∧ (file_content wd = "" → user_content = prompt)
    ∧ (uploaded wd = None → user_content = prompt).
Proof.
  intros Hin Hchat.
  destruct (chat_answered_inv _ _ _ _ _ _ _ Hchat)
    as (prompt' & Hin' & Hne & Hroom & Hkey & Hs & Hw).
  assert (prompt' = prompt) as -> by congruence.
  rewrite (chat_respond _ _ _ _ _ Hin Hne) in Hchat.
  apply writable_true in Hw.
  rewrite (respond_stream_ok _ _ _ _ _ _ Hroom Hkey Hs), Hw in Hchat.
  injection Hchat as <- <-.
  exists (full_prompt (file_content wd) prompt).
  split; [done|]. split; [by rewrite lookup_insert_eq|].
  unfold full_prompt. split; [|split].
  - intros Hfc. by apply String.eqb_neq in Hfc as ->.
  - by intros ->.
  - intros Hup. unfold file_content. by rewrite Hup.
Qed.

(** C7, as the code has it.  The rollback is [messages.pop()]: it removes the
    last message of the log, whichever it is, and does not fail as long as
    the log is not empty, which it never is when a handler runs; no message
    is compared.  Popping right after an append gives the log back, and so a
    submit that fails in the request, in the status check or in the
    streaming loop leaves the log as it was before the submit. *)
Theorem rollback_is_pop :
  (∀ (st : session_state) (m : message),
     messages_pop (messages_append m st) = Ok st)
  ∧ (∀ (e : exn) (st : session_state) (fs : gmap string string),
       messages st ≠ [] →
       handle e st fs = (reported e, set_messages (removelast (messages st)) st, fs))
  ∧ (∀ (wd : widgets) (w : world) (st : session_state)
       (fs : gmap string string) (e : exn),
       (chat wd w st fs).1.1 ≠ Uncaught e)
  ∧ (∀ (wd : widgets) (w : world) (st : session_state)
       (fs : gmap string string) (prompt : string) (e : exn),
       chat_input wd = Some prompt → prompt ≠ "" →
       length (prune (now w) (api_calls st)) < 10 → api_key wd ≠ "" →
       stream (api_provider wd) w = Raise e →
       chat wd w st fs
       = (reported e, set_api_calls (prune (now w) (api_calls st) ++ [now w]) st, fs)).
Proof.
  split; [|split; [|split]].
  - intros st m. unfold messages_pop, messages_append. simpl.
    destruct (messages st ++ [m]) eqn:E; [by destruct (messages st)|].
    rewrite <- E, removelast_last. unfold set_messages. simpl. by destruct st.
  - intros e st fs. apply handle_outcome.
  - apply chat_caught.
  - intros wd w st fs prompt e Hin Hne Hroom Hkey Hs.
    rewrite (chat_respond _ _ _ _ _ Hin Hne). by apply respond_stream_raises.
Qed.

End HandlerClaims.

Lemma string_app_inv_nil (a d : string) : a +:+ d = a → d = "".
Proof.
  induction a as [|c a IH]; [done|].
  rewrite string_app_cons. intros [= Ha]. by apply IH.
Qed.

Lemma concat_deltas_app (l1 l2 : list json) :
  concat_deltas (l1 ++ l2) = concat_deltas l1 +:+ concat_deltas l2.
Proof.
  induction l1 as [|v l1 IH]; [done|].
  simpl. by rewrite IH, string_app_assoc.
Qed.

Section StaleFrames.
Context `{!JsonModule}.

Lemma marked_frame_payload (s : string) :
  Py.startswith "data: " (Py.strip s) = true →
  s ≠ "" ∧ frame_payload OpenRouter s = Some (Py.slice_from 6 (Py.strip s)).
Proof.
  intros Hs. split; [intros ->; vm_compute in Hs; discriminate|].
  unfold frame_payload. by rewrite Hs.
Qed.

Lemma parsed_frames_app (p : provider) (l1 l2 : list chunk) :
  parsed_frames p (l1 ++ l2) = parsed_frames p l1 ++ parsed_frames p l2.
Proof.
  induction l1 as [|c l1 IH]; [done|].
  rewrite <- app_comm_cons, !parsed_frames_cons, IH.
  by destruct (parsed_frame p c).
Qed.

(** The loop on a frame with the marker and then a frame without it. *)
Lemma stream_loop_marked_unmarked (before : list chunk) (vars : json * string)
    (s u : string) (v : json) (d : string) :
  stream_loop OpenRouter (JStr "", "") before = Ok vars →
  Py.startswith "data: " (Py.strip s) = true →
  json_loads (Py.slice_from 6 (Py.strip s)) = Some v →
  delta_content v = Some d →
  u ≠ "" → Py.startswith "data: " (Py.strip u) = false →
  stream_loop OpenRouter (JStr "", "") (before ++ [Decodes s]) = Ok (v, vars.2 +:+ d)
  ∧ stream_loop OpenRouter (JStr "", "") (before ++ [Decodes s; Decodes u])
    = Ok (v, (vars.2 +:+ d) +:+ d)
  ∧ parsed_frames OpenRouter (before ++ [Decodes s; Decodes u])
    = parsed_frames OpenRouter before ++ [v].
Proof.
  intros Hb Hs Hv Hd Hu Hunmarked.
  destruct (marked_frame_payload s Hs) as [Hne Hp].
  assert (frame_payload OpenRouter u = None) as Hpu
    by (unfold frame_payload; by rewrite Hunmarked).
  assert (loop_body OpenRouter vars (Decodes s) = Ok (v, vars.2 +:+ d)) as Hfirst.
  { rewrite (loop_body_parsed _ _ _ _ _ Hne Hp Hv).
    by rewrite (add_delta_content _ _ _ Hd). }
  assert (loop_body OpenRouter (v, vars.2 +:+ d) (Decodes u)
          = Ok (v, (vars.2 +:+ d) +:+ d)) as Hsecond.
  { rewrite (loop_body_not_parsed _ _ Hu Hpu). simpl.
    by rewrite (add_delta_content _ _ _ Hd). }
  split; [|split].
  - rewrite stream_loop_app, Hb. simpl. by rewrite Hfirst.
  - rewrite stream_loop_app, Hb. simpl. rewrite Hfirst. simpl. by rewrite Hsecond.
  - rewrite parsed_frames_app. f_equal. rewrite !parsed_frames_cons.
    assert (chunk_nonempty (Decodes s) = true) as Hcs by by destruct s.
    assert (chunk_nonempty (Decodes u) = true) as Hcu by by destruct u.
    unfold parsed_frame. rewrite Hcs, Hcu, Hp, Hpu. simpl. by rewrite Hv.
Qed.

End StaleFrames.

(** C9. In the first branch of the loop (OpenRouter), take a stream that the
    loop has read without error, then a frame with the marker whose payload
    has the delta [d], then a non-empty frame without the marker.  After the
    first of the two frames the delta has been added once.  The second frame
    is not parsed, it adds no payload to the parsed ones, [chunk_json] still
    holds the payload of the first, and the lines after the branch add [d]
    again: the text ends with [d] twice.  So when the text was the
    concatenation of the deltas up to there and [d] is not empty, it is no
    longer the concatenation of one delta per parsed frame but that
    concatenation followed by [d].  Such streams exist: with the reference
    [json] module, the deltas "Hi" and " there" with a comment line between
    them accumulate to "HiHi there". *)
Theorem stale_payload_added_again :
  (∀ (J : JsonModule) (before : list chunk) (vars : json * string)
     (s u : string) (v : json) (d : string),
     @stream_loop J OpenRouter (JStr "", "") before = Ok vars →
     Py.startswith "data: " (Py.strip s) = true →
     @json_loads J (Py.slice_from 6 (Py.strip s)) = Some v →
     delta_content v = Some d →
     u ≠ "" → Py.startswith "data: " (Py.strip u) = false →
     let chunks := before ++ [Decodes s; Decodes u] in
     @stream_loop J OpenRouter (JStr "", "") (before ++ [Decodes s])
     = Ok (v, vars.2 +:+ d)
     ∧ @stream_loop J OpenRouter (JStr "", "") chunks = Ok (v, (vars.2 +:+ d) +:+ d)
     ∧ @parsed_frames J OpenRouter chunks = @parsed_frames J OpenRouter before ++ [v]
     ∧ (vars.2 = concat_deltas (@parsed_frames J OpenRouter before) →
        (vars.2 +:+ d) +:+ d = concat_deltas (@parsed_frames J OpenRouter chunks) +:+ d
        ∧ (d ≠ "" →
           (vars.2 +:+ d) +:+ d ≠ concat_deltas (@parsed_frames J OpenRouter chunks))))
  ∧ (let chunks :=
       [Decodes ("data: " +:+ Scenario.payload "Hi");
        Decodes ": OPENROUTER PROCESSING";
        Decodes ("data: " +:+ Scenario.payload " there")] in
     (∃ chunk_json,
        @stream_loop Json.module OpenRouter (JStr "", "") chunks
        = Ok (chunk_json, "HiHi there"))
     ∧ concat_deltas (@parsed_frames Json.module OpenRouter chunks) = "Hi there").
Proof.
  split.
  - intros J before vars s u v d Hb Hs Hv Hd Hu Hunmarked chunks.
    destruct (@stream_loop_marked_unmarked J before vars s u v d
                Hb Hs Hv Hd Hu Hunmarked) as (H1 & H2 & H3).
    split; [exact H1|]. split; [exact H2|]. split; [exact H3|].
    intros Hacc.
    assert (concat_deltas (@parsed_frames J OpenRouter chunks) = vars.2 +:+ d)
      as Hconcat.
    { unfold chunks. rewrite H3, concat_deltas_app, <- Hacc. simpl.
      by rewrite Hd, string_app_nil_r. }
    rewrite Hconcat. split; [done|].
    intros Hne Heq. by apply string_app_inv_nil in Heq.
  - split; [eexists|]; vm_compute; reflexivity.
Qed.

(** ** Saving and loading the history *)

Lemma chars_app (a b : string) : Py.chars (a +:+ b) = Py.chars a ++ Py.chars b.
Proof.
  induction a as [|c a IH]; [done|].
  rewrite string_app_cons. simpl. by rewrite IH.
Qed.

Lemma chars_inj (a b : string) : Py.chars a = Py.chars b → a = b.
Proof.
  intros Hab. rewrite <- (string_of_list_ascii_of_string a),
    <- (string_of_list_ascii_of_string b). by rewrite Hab.
Qed.

Lemma endswith_json_file_path (k : string) :
  Py.endswith ".json" (k +:+ ".json") = true.
Proof.
  unfold Py.endswith. apply bool_decide_eq_true.
  rewrite chars_app, length_app.
  replace (length (Py.chars k) + length (Py.chars ".json") - length (Py.chars ".json"))
    with (length (Py.chars k)) by lia.
  by rewrite drop_app_length.
Qed.

Lemma slice_file_path (k : string) : Py.slice_until_last 5 (k +:+ ".json") = k.
Proof.
  unfold Py.slice_until_last. rewrite chars_app, length_app.
  replace (length (Py.chars k) + length (Py.chars ".json") - 5)
    with (length (Py.chars k)) by (simpl; lia).
  by rewrite take_app_length, string_of_list_ascii_of_string.
Qed.

Lemma endswith_json_stem (file : string) :
  Py.endswith ".json" file = true →
  Py.slice_until_last 5 file +:+ ".json" = file.
Proof.
  unfold Py.endswith, Py.slice_until_last. intros Hend%bool_decide_eq_true.
  apply chars_inj. rewrite chars_app, list_ascii_of_string_of_list_ascii.
  rewrite <- Hend. apply take_drop.
Qed.

Lemma file_path_inj (k k' : string) : file_path k = file_path k' → k = k'.
Proof.
  unfold file_path. intros Hk.
  by rewrite <- (slice_file_path k), <- (slice_file_path k'), Hk.
Qed.

Section Persistence.
Context `{!JsonModule}.

(** The loop of [load_chat_history] ends without raising exactly when every
    listed [.json] file parses. *)
Lemma load_files_ok (files : list (string * string)) :
  ∀ h0 : gmap string json,
  (∃ h, load_files files h0 = Ok h)
  ↔ ∀ file text, (file, text) ∈ files → Py.endswith ".json" file = true →
      is_Some (json_loads text).
Proof.
  induction files as [|[f t] files IH]; intros h0.
  - split; [|by eexists]. intros _ file text Hin. by apply elem_of_nil in Hin.
  - simpl. destruct (Py.endswith ".json" f) eqn:Hend.
    + unfold loads. destruct (json_loads t) as [v|] eqn:Hl; simpl.
      * rewrite IH. split.
        -- intros Hall file text [[= -> ->]|Hin]%elem_of_cons ?; [by eexists|].
           by apply (Hall file text).
        -- intros Hall file text Hin. apply Hall. by right.
      * split; [by intros [h ?]|]. intros Hall.
        destruct (Hall f t) as [v Hv]; [left|done|congruence].
    + rewrite IH. split.
      * intros Hall file text [[= -> ->]|Hin]%elem_of_cons ?; [congruence|].
        by apply (Hall file text).
      * intros Hall file text Hin. apply Hall. by right.
Qed.

(** What the loop leaves under a key: the decoded contents of the file of
    that name, or what was there before when no such file is listed. *)
Lemma load_files_lookup (files : list (string * string)) :
  NoDup files.*1 →
  ∀ (h0 h : gmap string json), load_files files h0 = Ok h →
  ∀ k, h !! k =
       match (list_to_map files : gmap string string) !! file_path k with
       | Some text => json_loads text
       | None => h0 !! k
       end.
Proof.
  induction files as [|[f t] files IH]; intros Hnodup h0 h Hload k.
  - simpl in *. rewrite lookup_empty. by injection Hload as <-.
  - apply NoDup_cons in Hnodup as [Hf Hnodup]. simpl in Hload, Hf.
    cbn [list_to_map foldr uncurry fst snd].
    assert ((list_to_map files : gmap string string) !! f = None) as Hfresh
      by by apply not_elem_of_list_to_map_1.
    destruct (Py.endswith ".json" f) eqn:Hend.
    + unfold loads in Hload. destruct (json_loads t) as [v|] eqn:Hl; [|done].
      simpl in Hload. rewrite (IH Hnodup _ _ Hload k).
      destruct (decide (f = file_path k)) as [->|Hne].
      * rewrite lookup_insert_eq, Hfresh.
        unfold file_path. by rewrite slice_file_path, lookup_insert_eq.
      * rewrite (lookup_insert_ne _ f) by done.
        destruct (list_to_map files !! file_path k); [done|].
        rewrite lookup_insert_ne; [done|].
        intros <-. apply Hne. unfold file_path. by rewrite endswith_json_stem.
    + rewrite (IH Hnodup _ _ Hload k).
      rewrite lookup_insert_ne; [done|].
      intros ->. unfold file_path in Hend.
      by rewrite endswith_json_file_path in Hend.
Qed.

Lemma load_chat_history_lookup (fs : gmap string string) (h : gmap string json) :
  load_chat_history fs = Ok h →
  ∀ k, h !! k = fs !! file_path k ≫= json_loads.
Proof.
  intros Hload k.
  rewrite (load_files_lookup _ (NoDup_fst_map_to_list fs) _ _ Hload k).
  rewrite list_to_map_to_list, lookup_empty.
  by destruct (fs !! file_path k).
Qed.

Lemma load_chat_history_ok (fs : gmap string string) :
  (∃ h, load_chat_history fs = Ok h)
  ↔ ∀ file text, fs !! file = Some text → Py.endswith ".json" file = true →
      is_Some (json_loads text).
Proof.
  unfold load_chat_history. rewrite load_files_ok.
  split; intros Hall file text Hin; apply Hall; by apply elem_of_map_to_list.
Qed.

(** Appending a message, saving and loading the history again gives, under
    the identifier of the chat, the record that was saved; the other chats
    of the history are as they were. *)
Lemma save_then_load_any (st : session_state) (m : message) (w : world)
    (fs : gmap string string) (h0 : gmap string json) :
  writable w = true →
  load_chat_history fs = Ok h0 →
  let saved := history_record (isoformat w) (messages st ++ [m]) in
  json_loads (json_dumps saved) = Some saved →
  ∃ fs',
    save_chat_history w (messages_append m st) fs = (Ok (), fs')
    ∧ load_chat_history fs' = Ok (<[current_chat st := saved]> h0)
    ∧ py_getitem saved "messages"
      = Ok (JArr ((json_of_message <$> messages st) ++ [json_of_message m])).
Proof.
  intros Hw Hload saved Hrt. eexists. split; [|split].
  - unfold save_chat_history. apply writable_true in Hw. rewrite Hw. reflexivity.
  - simpl. fold saved.
    destruct (proj2 (load_chat_history_ok
                (<[file_path (current_chat st) := json_dumps saved]> fs)))
      as [h Hh].
    { intros file text Hin Hend.
      destruct (decide (file = file_path (current_chat st))) as [->|Hne].
      - rewrite lookup_insert_eq in Hin. injection Hin as <-. by eexists.
      - rewrite lookup_insert_ne in Hin by done.
        apply (proj1 (load_chat_history_ok fs) (ex_intro _ _ Hload) file text);
          done. }
    rewrite Hh. f_equal. apply map_eq. intros k.
    rewrite (load_chat_history_lookup _ _ Hh k).
    destruct (decide (k = current_chat st)) as [->|Hne].
    + by rewrite !lookup_insert_eq.
    + rewrite !lookup_insert_ne; [|done|by intros ?%file_path_inj].
      by rewrite (load_chat_history_lookup _ _ Hload k).
  - unfold saved, history_record. simpl. by rewrite fmap_app.
Qed.

End Persistence.

(** * The reference [json] module reads back the records it writes *)

Module JsonFacts.
Import Json.

Lemma string_body_escape (c : ascii) (rest : string) :
  string_body (escape c +:+ rest)
  = '(t, r) ← string_body rest; Some (String c t, r).
Proof. destruct c as [[] [] [] [] [] [] [] []]; reflexivity. Qed.

Lemma string_body_escape_all (s rest : string) :
  string_body (escape_all s +:+ String quote rest) = Some (s, rest).
Proof.
  induction s as [|c s IH]; [reflexivity|].
  cbn [escape_all]. rewrite string_app_assoc, string_body_escape, IH. reflexivity.
Qed.

Lemma literal_app (s rest : string) :
  literal s +:+ rest = String quote (escape_all s +:+ String quote rest).
Proof.
  unfold literal. rewrite !string_app_cons, string_app_assoc. reflexivity.
Qed.

Lemma value_literal (n : nat) (s rest : string) :
  value (S n) (literal s +:+ rest) = Some (JStr s, rest).
Proof.
  rewrite literal_app. cbn [value]. change (Ascii.eqb quote "{") with false.
  change (Ascii.eqb quote "[") with false. change (Ascii.eqb quote quote) with true.
  cbv iota. by rewrite string_body_escape_all.
Qed.

Lemma string_app_nil_l (s : string) : "" +:+ s = s.
Proof. reflexivity. Qed.

Lemma dumps_message (m : message) :
  dumps (json_of_message m)
  = "{" +:+ literal "role" +:+ ": " +:+ literal (role m) +:+ ", "
    +:+ literal "content" +:+ ": " +:+ literal (content m) +:+ "}".
Proof.
  unfold json_of_message. cbn [dumps List.map Py.join fst snd].
  by rewrite !string_app_assoc.
Qed.

#[local] Arguments escape_all : simpl never.

(** Runs the decoder over the tokens that are known. *)
Ltac run_decoder :=
  repeat (rewrite ?literal_app, ?string_app_cons, ?string_app_nil_l; simpl;
          rewrite ?string_body_escape_all; simpl).

Lemma value_message (n : nat) (m : message) (rest : string) :
  value (S (S (S (S n)))) (dumps (json_of_message m) +:+ rest)
  = Some (json_of_message m, rest).
Proof. rewrite dumps_message, !string_app_assoc. run_decoder. reflexivity. Qed.

Lemma skip_ws_message (m : message) (rest : string) :
  skip_ws (dumps (json_of_message m) +:+ rest) = dumps (json_of_message m) +:+ rest.
Proof. rewrite dumps_message, !string_app_assoc. reflexivity. Qed.

Lemma dumps_messages_cons (m : message) (l : list message) :
  dumps_messages (m :: l)
  = dumps (json_of_message m)
    +:+ match l with [] => "" | _ => ", " +:+ dumps_messages l end.
Proof.
  destruct l; [|reflexivity]. unfold dumps_messages. simpl.
  by rewrite string_app_nil_r.
Qed.

Lemma elements_step (n : nat) (s : string) :
  elements (S n) s =
    '(v, r) ← value n s;
    match skip_ws r with
    | String c r' =>
        if Ascii.eqb c "," then
          '(vs, rest) ← elements n (skip_ws r'); Some (v :: vs, rest)
        else if Ascii.eqb c "]" then Some ([v], r')
        else None
    | "" => None
    end.
Proof. reflexivity. Qed.

Lemma skip_ws_comma (s : string) : skip_ws (", " +:+ s) = String "," (" " +:+ s).
Proof. reflexivity. Qed.

Lemma skip_ws_space (s : string) : skip_ws (" " +:+ s) = skip_ws s.
Proof. reflexivity. Qed.

Lemma elements_messages (l : list message) :
  l ≠ [] → ∀ (n : nat) (rest : string), length l ≤ n →
  elements (S (S (S (S n)))) (dumps_messages l +:+ "]" +:+ rest)
  = Some (json_of_message <$> l, rest).
Proof.
  induction l as [|m l IH]; [done|]. intros _ n rest Hn.
  destruct n as [|n]; [simpl in Hn; lia|].
  rewrite dumps_messages_cons, string_app_assoc.
  rewrite elements_step, value_message. cbn [mbind option_bind].
  destruct l as [|m2 l].
  - reflexivity.
  - rewrite !string_app_assoc.
    rewrite skip_ws_comma. cbn [Ascii.eqb Bool.eqb]. cbv iota.
    rewrite skip_ws_space.
    rewrite (dumps_messages_cons m2 l), string_app_assoc, skip_ws_message.
    rewrite <- string_app_assoc, <- dumps_messages_cons.
    rewrite (IH ltac:(done) n rest) by (simpl in *; lia).
    reflexivity.
Qed.

Lemma value_open_array (n : nat) (s : string) :
  value (S n) ("[" +:+ String "{" s)
  = '(vs, rest) ← elements n (String "{" s); Some (JArr vs, rest).
Proof. reflexivity. Qed.

Lemma value_messages (n : nat) (l : list message) (rest : string) :
  length l ≤ n →
  value (S (S (S (S (S n))))) ("[" +:+ dumps_messages l +:+ "]" +:+ rest)
  = Some (JArr (json_of_message <$> l), rest).
Proof.
  intros Hn. destruct l as [|m l]; [reflexivity|].
  assert (∃ s, dumps_messages (m :: l) +:+ "]" +:+ rest = String "{" s) as [s Hs].
  { rewrite dumps_messages_cons, dumps_message, !string_app_assoc.
    eexists. reflexivity. }
  rewrite Hs, value_open_array, <- Hs, elements_messages; done.
Qed.

Lemma value_open_object (n : nat) (k s : string) :
  value (S n) ("{" +:+ literal k +:+ s)
  = '(ms, rest) ← members n (literal k +:+ s); Some (JObj ms, rest).
Proof. rewrite literal_app. reflexivity. Qed.

(** One member of an object, up to its value. *)
Lemma members_step (n : nat) (k s : string) :
  members (S n) (literal k +:+ ": " +:+ s) =
    '(v, r3) ← value n (skip_ws s);
    match skip_ws r3 with
    | String c3 r4 =>
        if Ascii.eqb c3 "," then
          '(ms, rest) ← members n (skip_ws r4); Some ((k, v) :: ms, rest)
        else if Ascii.eqb c3 "}" then Some ([(k, v)], r4)
        else None
    | "" => None
    end.
Proof.
  rewrite literal_app.
  change (members (S n) (String quote ?r)) with
    ('(k', r1) ← string_body r;
     match skip_ws r1 with
     | String c1 r2 =>
         if Ascii.eqb c1 ":" then
           '(v, r3) ← value n (skip_ws r2);
           match skip_ws r3 with
           | String c3 r4 =>
               if Ascii.eqb c3 "," then
                 '(ms, rest) ← members n (skip_ws r4); Some ((k', v) :: ms, rest)
               else if Ascii.eqb c3 "}" then Some ([(k', v)], r4)
               else None
           | "" => None
           end
         else None
     | "" => None
     end).
  rewrite string_body_escape_all. reflexivity.
Qed.

Lemma skip_ws_literal (s rest : string) :
  skip_ws (literal s +:+ rest) = literal s +:+ rest.
Proof. rewrite literal_app. reflexivity. Qed.

Lemma dumps_history (timestamp : string) (l : list message) :
  dumps (history_record timestamp l)
  = "{" +:+ literal "timestamp" +:+ ": " +:+ literal timestamp +:+ ", "
    +:+ literal "messages" +:+ ": " +:+ "[" +:+ dumps_messages l +:+ "]" +:+ "}".
Proof.
  unfold history_record, dumps_messages. cbn [dumps List.map Py.join fst snd].
  by rewrite !string_app_assoc.
Qed.

Lemma value_history (n : nat) (timestamp : string) (l : list message)
    (rest : string) :
  length l ≤ n →
  value (8 + n) (dumps (history_record timestamp l) +:+ rest)
  = Some (history_record timestamp l, rest).
Proof.
  intros Hn. rewrite dumps_history, !string_app_assoc.
  change (8 + n) with (S (S (S (S (S (S (S (S n)))))))).
  rewrite value_open_object, members_step, skip_ws_literal, value_literal.
  cbn [mbind option_bind]. rewrite skip_ws_comma. cbn [Ascii.eqb Bool.eqb]. cbv iota.
  rewrite skip_ws_space, skip_ws_literal, members_step.
  change (skip_ws ("[" +:+ ?s)) with ("[" +:+ s).
  rewrite value_messages by done. reflexivity.
Qed.

Lemma string_length_app (a b : string) :
  String.length (a +:+ b) = String.length a + String.length b.
Proof. induction a as [|c a IH]; [done|]. rewrite string_app_cons. simpl. by rewrite IH. Qed.

Lemma dumps_messages_length (l : list message) :
  length l ≤ String.length (dumps_messages l).
Proof.
  induction l as [|m l IH]; [done|].
  rewrite dumps_messages_cons, dumps_message, !string_length_app.
  destruct l as [|m2 l]; [simpl; lia|].
  rewrite string_length_app. set (x := dumps_messages (m2 :: l)) in *.
  simpl in *. lia.
Qed.

(** The reference decoder reads back every record that the reference
    encoder writes for a chat. *)
Lemma loads_dumps_history (timestamp : string) (l : list message) :
  loads (dumps (history_record timestamp l)) = Some (history_record timestamp l).
Proof.
  unfold loads.
  assert (skip_ws (dumps (history_record timestamp l))
          = dumps (history_record timestamp l) +:+ "") as ->.
  { rewrite string_app_nil_r, dumps_history. reflexivity. }
  assert (∃ n, 2 * String.length (dumps (history_record timestamp l)) + 2 = 8 + n
               ∧ length l ≤ n) as (n & -> & Hn).
  { pose proof (dumps_messages_length l) as Hlen.
    exists (2 * String.length (dumps (history_record timestamp l)) + 2 - 8).
    rewrite dumps_history, !string_length_app. simpl. lia. }
  by rewrite value_history.
Qed.

End JsonFacts.

(** C8. Appending a message, saving and loading the history again gives,
    under the identifier of the chat, the record that was saved: its
    timestamp and the prior messages followed by the appended one, in order.
    The other chats of the history are as they were.  This holds when the
    file can be written and the files that were there load; for any [json]
    module that reads back what it wrote for this record, and for the
    reference module, which does so for every record. *)
Theorem save_then_load :
  (∀ (J : JsonModule) (st : session_state) (m : message) (w : world)
     (fs : gmap string string) (h0 : gmap string json),
     writable w = true →
     @load_chat_history J fs = Ok h0 →
     let saved := history_record (isoformat w) (messages st ++ [m]) in
     @json_loads J (@json_dumps J saved) = Some saved →
     ∃ fs',
       @save_chat_history J w (messages_append m st) fs = (Ok (), fs')
       ∧ @load_chat_history J fs' = Ok (<[current_chat st := saved]> h0)
       ∧ py_getitem saved "messages"
         = Ok (JArr ((json_of_message <$> messages st) ++ [json_of_message m])))
  ∧ (∀ (st : session_state) (m : message) (w : world)
       (fs : gmap string string) (h0 : gmap string json),
       writable w = true →
       @load_chat_history Json.module fs = Ok h0 →
       let saved := history_record (isoformat w) (messages st ++ [m]) in
       ∃ fs',
         @save_chat_history Json.module w (messages_append m st) fs = (Ok (), fs')
         ∧ @load_chat_history Json.module fs' = Ok (<[current_chat st := saved]> h0)
         ∧ py_getitem saved "messages"
           = Ok (JArr ((json_of_message <$> messages st) ++ [json_of_message m]))).
Proof.
  split.
  - intros J st m w fs h0. apply save_then_load_any.
  - intros st m w fs h0 Hw Hload saved.
    apply (@save_then_load_any Json.module); [done|done|].
    apply JsonFacts.loads_dumps_history.
Qed.

(** * The script on concrete runs

    The runs below use the reference [json] module. *)

Section Runs.
#[local] Existing Instance Json.module.

Import Scenario.

(** C1 fails on the code at this input.  The stream of the answer to "Hello"
    ends well, the assistant message is appended, and then
    [save_chat_history] raises because the history directory cannot be
    written.  The handler of line 190 pops the last message, which is the
    assistant message: the log is left with the user message and no answer
    to it.  When the button for a new chat is pressed later and the
    directory can be written again, that log is what gets saved. *)
Theorem save_failure_leaves_user_turn :
  let after := set_messages [user_message "Hello"] (set_api_calls [100%Q] fresh) in
  chat (typed DeepSeekDirect "Hello")
       (read_only_disk (replies 200 [Decodes (payload "Hi"); Decodes (payload " there")]))
       fresh ∅
  = (Failed OSError, after, ∅)
  ∧ new_chat "chat-2" (replies 200 []) after ∅
    = (Ok (set_api_calls [100%Q] (initial_state "chat-2")),
       {[ "chat-1.json" :=
            Json.dumps (history_record "2024-05-01T12:00:00" [user_message "Hello"]) ]}).
Proof. split; vm_compute; reflexivity. Qed.

(** C5 fails on the code at this input.  Between the two payloads the
    provider sends a comment line; the first branch of the loop does not
    parse it and adds the delta of the first payload again.  The parsed
    frames carry the deltas "Hi" and " there", and the assistant message
    that is stored and saved is "HiHi there". *)
Theorem openrouter_repeats_delta :
  let chunks :=
    [Decodes ("data: " +:+ payload "Hi");
     Decodes ": OPENROUTER PROCESSING";
     Decodes ("data: " +:+ payload " there")] in
  let log := [user_message "Hello"; assistant_message "HiHi there"] in
  concat_deltas (parsed_frames OpenRouter chunks) = "Hi there"
  ∧ chat (typed OpenRouter "Hello") (replies 200 chunks) fresh ∅
    = (Answered "HiHi there",
       set_messages log (set_api_calls [100%Q] fresh),
       {[ "chat-1.json" := Json.dumps (history_record "2024-05-01T12:00:00" log) ]}).
Proof. split; vm_compute; reflexivity. Qed.

(** The scenario of the specification, in the format without marker: the
    deltas "Hi" and " there" give the assistant message "Hi there" and a log
    of exactly two messages. *)
Example hello_hi_there :
  let log := [user_message "Hello"; assistant_message "Hi there"] in
  chat (typed DeepSeekDirect "Hello")
       (replies 200 [Decodes (payload "Hi"); Decodes (payload " there")]) fresh ∅
  = (Answered "Hi there",
     set_messages log (set_api_calls [100%Q] fresh),
     {[ "chat-1.json" := Json.dumps (history_record "2024-05-01T12:00:00" log) ]}).
Proof. vm_compute. reflexivity. Qed.

(** C2 fails on the code at this input: the system clock, which
    [time.time()] reads, is set back by 50 seconds between two calls.  The
    call at time 50 keeps the timestamp 100 of the call before it, and that
    timestamp does not lie in [now - 60, now]. *)
Lemma clock_set_back_keeps_later_entry :
  let st := admits [100; 50]%Q fresh in
  api_calls st = [100; 50]%Q
  ∧ ¬ (∀ t, t ∈ api_calls st → (50 - 60 <= t)%Q ∧ (t <= 50)%Q).
Proof.
  intros st. split; [vm_compute; reflexivity|].
  intros Hall. destruct (Hall 100%Q) as [_ Hle]; [|lra].
  replace (api_calls st) with [100; 50]%Q by (vm_compute; reflexivity).
  apply list_elem_of_here.
Qed.

(** C3 fails on the code at this input: the window holds ten timestamps and
    the oldest is exactly 60 seconds old at the call.  None of them is older
    than 60 seconds, yet the oldest is pruned, nine remain and the call is
    admitted. *)
Lemma entry_sixty_seconds_old_is_pruned :
  let st := set_api_calls [0; 1; 2; 3; 4; 5; 6; 7; 8; 9]%Q fresh in
  Forall (λ t, ¬ (t < 60 - 60)%Q) (api_calls st)
  ∧ length (api_calls st) = 10
  ∧ check_rate_limit 60 st
    = (true, set_api_calls [1; 2; 3; 4; 5; 6; 7; 8; 9; 60]%Q fresh).
Proof.
  intros st. split; [|split]; [|reflexivity|vm_compute; reflexivity].
  simpl. repeat (apply Forall_cons; split; [intros ?; lra|]). by apply Forall_nil.
Qed.

(** C4 fails on the code at these inputs: a frame that is not JSON, between
    two frames that are, ends the submit with [JSONDecodeError] in either
    format; no assistant message is stored. *)
Lemma malformed_frame_raises :
  Json.loads "not json" = None
  ∧ chat (typed DeepSeekDirect "Hello")
         (replies 200 [Decodes (payload "Hi"); Decodes "not json";
                       Decodes (payload " there")]) fresh ∅
    = (Failed JSONDecodeError, set_api_calls [100%Q] fresh, ∅)
  ∧ chat (typed OpenRouter "Hello")
         (replies 200 [Decodes ("data: " +:+ payload "Hi"); Decodes "data: not json";
                       Decodes ("data: " +:+ payload " there")]) fresh ∅
    = (Failed JSONDecodeError, set_api_calls [100%Q] fresh, ∅).
Proof. split; [|split]; vm_compute; reflexivity. Qed.

(** C6 fails on the code at this input: a text file is attached whose
    content is empty; the stored user message is the typed text alone, not
    the empty content, a newline and the typed text. *)
Lemma empty_attachment_no_newline :
  let wd := attached (text_file "") (typed DeepSeekDirect "Summarize.") in
  let log := [user_message "Summarize."; assistant_message "Done."] in
  is_Some (uploaded wd)
  ∧ chat wd (replies 200 [Decodes (payload "Done.")]) fresh ∅
    = (Answered "Done.",
       set_messages log (set_api_calls [100%Q] fresh),
       {[ "chat-1.json" := Json.dumps (history_record "2024-05-01T12:00:00" log) ]})
  ∧ "Summarize." ≠ file_content wd +:+ newline +:+ "Summarize.".
Proof.
  split; [|split]; [by eexists|vm_compute; reflexivity|vm_compute; discriminate].
Qed.

(** C7 fails on the code at this input: the handler rolls back the submit of
    "Hello" when the last message of the log is the assistant message; no
    mismatch is detected and the assistant message is removed. *)
Lemma rollback_pops_assistant_message :
  let u := user_message "Hello" in
  let a := assistant_message "Hi there" in
  last [u; a] ≠ Some u
  ∧ handle OSError (set_messages [u; a] fresh) ∅
    = (Failed OSError, set_messages [u] fresh, ∅).
Proof. split; [vm_compute; discriminate|vm_compute; reflexivity]. Qed.

End Runs.

(** * The theorems at concrete inputs *)

Section Witnesses.
#[local] Existing Instance Json.module.

Import Scenario.

(** Twelve calls: eleven in one minute, the twelfth a minute later. *)
Lemma rate_window_invariant_witness :
  let times := [1; 2; 3; 4; 5; 6; 7; 8; 9; 10; 11]%Q in
  let st := admits (times ++ [62%Q]) (initial_state "chat-1") in
  chronological (times ++ [62%Q])
  ∧ (∀ t, t ∈ api_calls st → (62 - 60 < t)%Q ∧ (t <= 62)%Q)
  ∧ (∀ T, length (in_window T (admitted (times ++ [62%Q]) (initial_state "chat-1")))
          ≤ 10).
Proof.
  intros times st.
  assert (chronological (times ++ [62%Q])) as Hc.
  { simpl. repeat split; lra. }
  split; [exact Hc|].
  exact (proj2 (proj2 (proj2 (proj1 rate_window_invariant "chat-1" times 62%Q))) Hc).
Defined.

(** A submit on a window that holds ten timestamps of the last minute. *)
Lemma admit_contract_witness :
  let st := set_api_calls [91; 92; 93; 94; 95; 96; 97; 98; 99; 100]%Q fresh in
  let wd := typed DeepSeekDirect "Hello" in
  let w := at_time 101 (replies 200 []) in
  chat_input wd = Some "Hello" ∧ "Hello" ≠ ""
  ∧ 10 ≤ length (prune (now w) (api_calls st))
  ∧ chat wd w st ∅ = (RateLimited, set_api_calls (prune (now w) (api_calls st)) st, ∅).
Proof.
  intros st wd w.
  assert (10 ≤ length (prune (now w) (api_calls st))) as Hfull
    by (vm_compute; lia).
  split; [reflexivity|]. split; [discriminate|]. split; [exact Hfull|].
  exact (proj1 (proj2 admit_contract) wd w st ∅ "Hello" eq_refl
           ltac:(discriminate) Hfull).
Defined.

(** A submit without an API key. *)
Lemma timestamp_kept_on_failure_witness :
  let wd := {| api_provider := OpenRouter; api_key := ""; uploaded := None;
               chat_input := Some "Hello" |} in
  let w := replies 200 [] in
  chat_input wd = Some "Hello" ∧ "Hello" ≠ ""
  ∧ length (prune (now w) (api_calls fresh)) < 10
  ∧ (let r := chat wd w fresh ∅ in
     api_calls r.1.2 = prune (now w) (api_calls fresh) ++ [now w]
     ∧ r.1.1 ≠ RateLimited
     ∧ (api_key wd = "" → r.1.1 = MissingApiKey)
     ∧ (api_key wd ≠ "" → ∀ e, stream (api_provider wd) w = Raise e →
        r.1.1 = reported e)).
Proof.
  intros wd w.
  assert (length (prune (now w) (api_calls fresh)) < 10) as Hroom
    by (vm_compute; lia).
  split; [reflexivity|]. split; [discriminate|]. split; [exact Hroom|].
  exact (timestamp_kept_on_failure wd w fresh ∅ "Hello" eq_refl
           ltac:(discriminate) Hroom).
Defined.

(** A frame that is not JSON after one that is, in the format without
    marker. *)
Lemma unparsable_frame_aborts_witness :
  let before := [Decodes (payload "Hi")] in
  let after := [Decodes (payload " there")] in
  let vars :=
    (JObj [("choices", JArr [JObj [("delta", JObj [("content", JStr "Hi")])]])],
     "Hi") in
  stream_loop DeepSeekDirect (JStr "", "") before = Ok vars
  ∧ "not json" ≠ ""
  ∧ frame_payload DeepSeekDirect "not json" = Some "not json"
  ∧ json_loads "not json" = None
  ∧ stream_loop DeepSeekDirect (JStr "", "") (before ++ Decodes "not json" :: after)
    = Raise JSONDecodeError.
Proof.
  intros before after vars.
  assert (stream_loop DeepSeekDirect (JStr "", "") before = Ok vars) as Hb
    by (vm_compute; reflexivity).
  assert (frame_payload DeepSeekDirect "not json" = Some "not json") as Hp
    by (vm_compute; reflexivity).
  assert (json_loads "not json" = None) as Hl by (vm_compute; reflexivity).
  split; [exact Hb|]. split; [discriminate|]. split; [exact Hp|].
  split; [exact Hl|].
  exact (proj1 (unparsable_frame_aborts DeepSeekDirect before after vars
                  "not json" "not json" Hb ltac:(discriminate) Hp Hl)).
Defined.

(** The scenario of the specification: the file holds "Context." and the
    typed text is "Summarize.". *)
Lemma user_content_composition_witness :
  let wd := attached (text_file "Context.") (typed DeepSeekDirect "Summarize.") in
  let w := replies 200 [Decodes (payload "Done.")] in
  let log := [user_message ("Context." +:+ newline +:+ "Summarize.");
              assistant_message "Done."] in
  let st' := set_messages log (set_api_calls [100%Q] fresh) in
  let fs' : gmap string string :=
    {[ "chat-1.json" := Json.dumps (history_record "2024-05-01T12:00:00" log) ]} in
  chat_input wd = Some "Summarize."
  ∧ chat wd w fresh ∅ = (Answered "Done.", st', fs')
  ∧ ∃ user_content,
      messages st' = messages fresh ++ [user_message user_content; assistant_message "Done."]
      ∧ fs' !! file_path (current_chat fresh)
        = Some (json_dumps (history_record (isoformat w)
                  (messages fresh ++ [user_message user_content; assistant_message "Done."])))
      ∧ (file_content wd ≠ "" → user_content = file_content wd +:+ newline +:+ "Summarize.")
      ∧ (file_content wd = "" → user_content = "Summarize.")
      ∧ (uploaded wd = None → user_content = "Summarize.").
Proof.
  intros wd w log st' fs'.
  assert (chat wd w fresh ∅ = (Answered "Done.", st', fs')) as Hchat
    by (vm_compute; reflexivity).
  split; [reflexivity|]. split; [exact Hchat|].
  exact (user_content_composition wd w fresh st' ∅ fs' "Summarize." "Done."
           eq_refl Hchat).
Defined.

(** A submit that the provider answers with HTTP 429. *)
Lemma rollback_is_pop_witness :
  let wd := typed OpenRouter "Hello" in
  let w := replies 429 [] in
  chat_input wd = Some "Hello" ∧ "Hello" ≠ ""
  ∧ length (prune (now w) (api_calls fresh)) < 10 ∧ api_key wd ≠ ""
  ∧ stream (api_provider wd) w = Raise (HTTPError 429)
  ∧ chat wd w fresh ∅
    = (ApiError 429,
       set_api_calls (prune (now w) (api_calls fresh) ++ [now w]) fresh, ∅).
Proof.
  intros wd w.
  assert (length (prune (now w) (api_calls fresh)) < 10) as Hroom
    by (vm_compute; lia).
  assert (stream (api_provider wd) w = Raise (HTTPError 429)) as Hs
    by (vm_compute; reflexivity).
  split; [reflexivity|]. split; [discriminate|]. split; [exact Hroom|].
  split; [discriminate|]. split; [exact Hs|].
  exact (proj2 (proj2 (proj2 rollback_is_pop)) wd w fresh ∅ "Hello" (HTTPError 429)
           eq_refl ltac:(discriminate) Hroom ltac:(discriminate) Hs).
Defined.

(** The answer "Hi there" is appended to a chat that holds "Hello", next to
    an older chat and a file that is not a chat. *)
Lemma save_then_load_witness :
  let st := set_messages [user_message "Hello"] fresh in
  let m := assistant_message "Hi there" in
  let w := replies 200 [] in
  let old := history_record "2024-04-30T09:00:00" [user_message "Earlier"] in
  let fs : gmap string string :=
    {[ "chat-0.json" := Json.dumps old; "notes.txt" := "not json" ]} in
  let h0 : gmap string json := {[ "chat-0" := old ]} in
  let saved := history_record (isoformat w) (messages st ++ [m]) in
  writable w = true
  ∧ load_chat_history fs = Ok h0
  ∧ json_loads (json_dumps saved) = Some saved
  ∧ ∃ fs',
      save_chat_history w (messages_append m st) fs = (Ok (), fs')
      ∧ load_chat_history fs' = Ok (<[current_chat st := saved]> h0)
      ∧ py_getitem saved "messages"
        = Ok (JArr ((json_of_message <$> messages st) ++ [json_of_message m])).
Proof.
  intros st m w old fs h0 saved.
  assert (load_chat_history fs = Ok h0) as Hload by (vm_compute; reflexivity).
  assert (json_loads (json_dumps saved) = Some saved) as Hrt
    by (vm_compute; reflexivity).
  split; [reflexivity|]. split; [exact Hload|]. split; [exact Hrt|].
  exact (proj1 save_then_load Json.module st m w fs h0 eq_refl Hload Hrt).
Defined.

(** A comment line after the payload with the delta "Hi", in a stream that
    has delivered "Well, " before. *)
Lemma stale_payload_added_again_witness :
  let hi := JObj [("choices", JArr [JObj [("delta", JObj [("content", JStr "Hi")])]])] in
  let well :=
    JObj [("choices", JArr [JObj [("delta", JObj [("content", JStr "Well, ")])]])] in
  let before := [Decodes ("data: " +:+ payload "Well, ")] in
  let s := "data: " +:+ payload "Hi" in
  let u := ": OPENROUTER PROCESSING" in
  stream_loop OpenRouter (JStr "", "") before = Ok (well, "Well, ")
  ∧ Py.startswith "data: " (Py.strip s) = true
  ∧ json_loads (Py.slice_from 6 (Py.strip s)) = Some hi
  ∧ delta_content hi = Some "Hi"
  ∧ u ≠ ""
  ∧ Py.startswith "data: " (Py.strip u) = false
  ∧ stream_loop OpenRouter (JStr "", "") (before ++ [Decodes s; Decodes u])
    = Ok (hi, ("Well, " +:+ "Hi") +:+ "Hi").
Proof.
  intros hi well before s u.
  assert (stream_loop OpenRouter (JStr "", "") before = Ok (well, "Well, ")) as Hb
    by (vm_compute; reflexivity).
  assert (Py.startswith "data: " (Py.strip s) = true) as Hs
    by (vm_compute; reflexivity).
  assert (json_loads (Py.slice_from 6 (Py.strip s)) = Some hi) as Hv
    by (vm_compute; reflexivity).
  assert (Py.startswith "data: " (Py.strip u) = false) as Hu
    by (vm_compute; reflexivity).
  split; [exact Hb|]. split; [exact Hs|]. split; [exact Hv|].
  split; [reflexivity|]. split; [discriminate|]. split; [exact Hu|].
  exact (proj1 (proj2 (proj1 stale_payload_added_again Json.module before
                         (well, "Well, ") s u hi "Hi" Hb Hs Hv eq_refl
                         ltac:(discriminate) Hu))).
Defined.

End Witnesses.

(** * Further properties of the script *)

(** ** The rate window, beyond the bound *)

Lemma chronological_from_snoc (times : list Q) :
  ∀ t0 now : Q,
  chronological_from t0 (times ++ [now]) →
  chronological_from t0 times ∧ (List.last times t0 <= now)%Q.
Proof.
  induction times as [|t times IH]; intros t0 now Hc.
  - simpl in *. tauto.
  - destruct Hc as [Hle Hc]. destruct (IH _ _ Hc) as [Hc' Hlast].
    rewrite last_cons_default. simpl. tauto.
Qed.

Lemma chronological_from_hd (times : list Q) (d : Q) :
  chronological times → chronological_from (hd d times) times.
Proof. destruct times; simpl; [done|]. intros Hc. split; [apply Qle_refl|done]. Qed.

Lemma in_window_prune (T : Q) (l : list Q) :
  (∀ t, t ∈ l → (t <= T)%Q) → in_window T l = prune T l.
Proof.
  intros Hall. induction l as [|t l IH]; [done|]. simpl.
  assert (Qle_bool t T = true) as -> by (apply Qle_bool_iff, Hall; left).
  rewrite andb_true_r, IH; [done|]. intros t' Ht'. apply Hall. by right.
Qed.

Lemma check_rate_limit_true (now : Q) (st : session_state) :
  (check_rate_limit now st).1 = true ↔ length (prune now (api_calls st)) < 10.
Proof.
  destruct (Nat.le_gt_cases 10 (length (prune now (api_calls st)))) as [Hfull|Hroom].
  - rewrite (check_rate_limit_reject _ _ Hfull). simpl. split; [done|lia].
  - by rewrite (check_rate_limit_accept _ _ Hroom).
Qed.

(** The invariant of the window after calls in the order of time on a
    session that has just started. *)
Lemma window_inv_fresh (uuid4 : string) (times : list Q) (d : Q) :
  chronological times →
  window_inv (List.last times (hd d times)) (admitted times (initial_state uuid4))
    (api_calls (admits times (initial_state uuid4))).
Proof.
  intros Hc.
  apply (window_inv_run times (hd d times) [] (initial_state uuid4)
           (window_inv_initial _) (chronological_from_hd _ d Hc)).
Qed.

(** X1. On a session whose clock does not run backwards, a call of
    [check_rate_limit] is admitted exactly when fewer than 10 of the calls
    admitted before fall in the 60 seconds that end at the call: the calls
    that were rejected do not count, and no call is rejected while there is
    room. *)
Theorem admitted_iff_room (uuid4 : string) (times : list Q) (now : Q) :
  chronological (times ++ [now]) →
  (check_rate_limit now (admits times (initial_state uuid4))).1 = true
  ↔ length (in_window now (admitted times (initial_state uuid4))) < 10.
Proof.
  intros Hc.
  pose proof (chronological_from_hd _ now Hc) as Hfrom.
  apply chronological_from_snoc in Hfrom as [Hfrom Hlast].
  pose proof (window_inv_run times _ [] (initial_state uuid4)
                (window_inv_initial _) Hfrom) as [Hw Hpast _ _].
  simpl in Hw, Hpast.
  rewrite check_rate_limit_true, Hw, prune_prune by done.
  rewrite in_window_prune; [done|].
  intros t Ht. specialize (Hpast t Ht). lra.
Qed.

(** X2. A call that comes 60 seconds or more after every timestamp of the
    window is admitted whatever the window held, and leaves the window with
    its own timestamp alone. *)
Theorem window_expires (now : Q) (st : session_state) :
  Forall (λ t, (t <= now - 60)%Q) (api_calls st) →
  check_rate_limit now st = (true, set_api_calls [now] st).
Proof.
  intros Hold.
  assert (prune now (api_calls st) = []) as Hpr.
  { induction Hold as [|t l Ht _ IH]; [done|]. simpl.
    destruct (Qgtb t (now - 60)) eqn:E; [|done].
    apply Qgtb_true in E. lra. }
  rewrite check_rate_limit_accept by (rewrite Hpr; simpl; lia).
  by rewrite Hpr.
Qed.

(** X3. On a session whose clock does not run backwards, the window after a
    call holds exactly the timestamps admitted so far that fall in the 60
    seconds ending at the call, in the order of their admission. *)
Theorem window_is_recent_history (uuid4 : string) (times : list Q) (now : Q) :
  chronological (times ++ [now]) →
  api_calls (admits (times ++ [now]) (initial_state uuid4))
  = in_window now (admitted (times ++ [now]) (initial_state uuid4)).
Proof.
  intros Hc.
  pose proof (window_inv_fresh uuid4 _ now Hc) as [Hw Hpast _ _].
  rewrite List.last_last in Hw, Hpast.
  by rewrite in_window_prune.
Qed.

(** ** The handler, case by case *)

Section HandlerCases.
Context `{!JsonModule}.

(** The ways a run of the handler can end, with the state and the files it
    leaves. *)
Lemma chat_cases (wd : widgets) (w : world) (st : session_state)
    (fs : gmap string string) :
  let st1 := set_api_calls (prune (now w) (api_calls st) ++ [now w]) st in
  chat wd w st fs = (Idle, st, fs)
  ∨ chat wd w st fs
    = (RateLimited, set_api_calls (prune (now w) (api_calls st)) st, fs)
  ∨ chat wd w st fs = (MissingApiKey, st1, fs)
  ∨ (∃ e, stream (api_provider wd) w = Raise e
          ∧ chat wd w st fs = (reported e, st1, fs))
  ∨ (∃ text user fs',
       stream (api_provider wd) w = Ok text ∧ writable w = false
       ∧ (disk w = OpenRaises ∧ fs' = fs
          ∨ ∃ written,
              disk w = WriteRaises written
              ∧ fs' = <[file_path (current_chat st) :=
                          Py.slice_to written
                            (json_dumps (history_record (isoformat w)
                               (messages st ++ [user_message user;
                                                assistant_message text])))]> fs)
       ∧ chat wd w st fs
         = (Failed OSError, set_messages (messages st ++ [user_message user]) st1, fs'))
  ∨ (∃ text user,
       stream (api_provider wd) w = Ok text ∧ writable w = true
       ∧ chat wd w st fs
         = (Answered text,
            set_messages (messages st ++ [user_message user; assistant_message text]) st1,
            <[file_path (current_chat st) :=
                json_dumps (history_record (isoformat w)
                  (messages st ++ [user_message user; assistant_message text]))]> fs)).
Proof.
  intros st1.
  destruct (chat_input wd) as [prompt|] eqn:Hin;
    [|left; unfold chat; by rewrite Hin].
  destruct (decide (prompt = "")) as [->|Hne];
    [left; unfold chat; by rewrite Hin|].
  right. rewrite (chat_respond _ _ _ _ _ Hin Hne).
  destruct (Nat.le_gt_cases 10 (length (prune (now w) (api_calls st))))
    as [Hfull|Hroom]; [left; by apply respond_rejected|].
  right.
  destruct (decide (api_key wd = "")) as [Hkey|Hkey].
  { left. unfold respond. rewrite (check_rate_limit_accept _ _ Hroom). simpl.
    by rewrite Hkey. }
  right.
  destruct (stream (api_provider wd) w) as [text|e] eqn:Hs.
  - right. rewrite (respond_stream_ok _ _ _ _ _ _ Hroom Hkey Hs).
    unfold writable. destruct (disk w) as [|written|] eqn:Hdisk.
    + left. do 3 eexists. split; [done|]. split; [done|]. split; [|done]. by left.
    + left. do 3 eexists. split; [done|]. split; [done|]. split; [|done].
      right. by exists written.
    + right. eauto.
  - left. exists e. split; [done|]. by apply respond_stream_raises.
Qed.

(** X4. Whatever the widgets, the network and the disk, a run of the handler
    keeps the identifier of the chat and the loaded history, only ever adds
    messages at the end of the log and touches no file but the one of the
    current chat.  No file at all is written when the log is left as it was,
    or when the file cannot be opened.  An answered submit leaves in the file
    the record of the log.  A submit that is not answered leaves the files as
    they were, or else the write of the save broke off: the submit ends in
    the generic handler with [OSError], and the file, whatever it held
    before, holds the first characters of the text of the record and no
    more. *)
Theorem chat_frame (wd : widgets) (w : world) (st : session_state)
    (fs : gmap string string) :
  let r := chat wd w st fs in
  let path := file_path (current_chat st) in
  current_chat r.1.2 = current_chat st
  ∧ chat_history r.1.2 = chat_history st
  ∧ messages st `prefix_of` messages r.1.2
  ∧ (∀ file, file ≠ path → r.2 !! file = fs !! file)
  ∧ (messages r.1.2 = messages st → r.2 = fs)
  ∧ (disk w = OpenRaises → r.2 = fs)
  ∧ (∀ text, r.1.1 = Answered text →
       r.2 = <[path := json_dumps (history_record (isoformat w) (messages r.1.2))]> fs)
  ∧ ((∀ text, r.1.1 ≠ Answered text) →
       r.2 = fs
       ∨ ∃ written text,
           disk w = WriteRaises written
           ∧ stream (api_provider wd) w = Ok text
           ∧ r.1.1 = Failed OSError
           ∧ r.2 = <[path :=
                       Py.slice_to written
                         (json_dumps (history_record (isoformat w)
                            (messages r.1.2 ++ [assistant_message text])))]> fs).
Proof.
  intros r path. subst r path.
  destruct (chat_cases wd w st fs)
    as [->|[->|[->|[(e & _ & ->)
       |[(text & user & fs' & Hs & _ & Hfs & ->)
        |(text & user & _ & Hw & ->)]]]]]; simpl.
  1-4: split; [done|]; split; [done|]; split; [done|]; split; [done|];
       split; [done|]; split; [done|]; split; [|by left].
  1-3: done.
  - intros text. by destruct e.
  - split; [done|]. split; [done|]. split; [by eexists|].
    destruct Hfs as [[Hdisk ->]|(written & Hdisk & ->)].
    + repeat split; try done. by left.
    + split; [intros file Hfile; by rewrite lookup_insert_ne|].
      split; [intros Hlog; apply (f_equal length) in Hlog;
             rewrite length_app in Hlog; simpl in Hlog; lia|].
      split; [congruence|]. split; [done|].
      intros _. right. exists written, text. rewrite <- app_assoc. done.
  - apply writable_true in Hw.
    split; [done|]. split; [done|]. split; [by eexists|].
    split; [intros file Hfile; by rewrite lookup_insert_ne|].
    split; [intros Hlog; apply (f_equal length) in Hlog;
             rewrite length_app in Hlog; simpl in Hlog; lia|].
    split; [congruence|]. split; [by intros ? [= <-]|].
    intros Hno. by destruct (Hno text).
Qed.



Lemma add_delta_not_http (v : json) (acc : string) (c : Z) :
  add_delta v acc ≠ Raise (HTTPError c).
Proof.
  unfold add_delta, py_in, py_getitem, py_getitem_0, py_get, py_iadd.
  repeat (case_match; simplify_eq/=; try done).
Qed.

Lemma stream_loop_not_http (p : provider) (chunks : list chunk) (c : Z) :
  ∀ vars, stream_loop p vars chunks ≠ Raise (HTTPError c).
Proof.
  induction chunks as [|ch chunks IH]; intros vars; [done|]. simpl.
  destruct (loop_body p vars ch) as [vars'|e] eqn:Hbody; simpl; [apply IH|].
  intros [= ->]. unfold loop_body in Hbody.
  destruct (chunk_nonempty ch); [|done].
  destruct (read_frame p vars.1 ch) as [cj|e] eqn:Hread; simpl in Hbody.
  - pose proof (add_delta_not_http cj vars.2 c) as Hd.
    destruct (add_delta cj vars.2); [done|]. simpl in Hbody. congruence.
  - injection Hbody as ->. unfold read_frame, loads, decode in Hread.
    destruct p, ch; simpl in Hread; repeat (case_match; simplify_eq/=);
      discriminate.
Qed.

(** X6. An admitted submit with an API key ends in the handler of
    [HTTPError], reporting the status code, exactly when the server answers
    with a status from 400 to 599: nothing else in the request, in the
    streaming loop or in the saving is reported as an API error, and no
    other status is. *)
Theorem api_error_iff_status (wd : widgets) (w : world) (st : session_state)
    (fs : gmap string string) (prompt : string) (c : Z) :
  chat_input wd = Some prompt → prompt ≠ "" →
  length (prune (now w) (api_calls st)) < 10 → api_key wd ≠ "" →
  (chat wd w st fs).1.1 = ApiError c
  ↔ ∃ r, post w = PostReturns r ∧ status_code r = c ∧ (400 ≤ c < 600)%Z.
Proof.
  intros Hin Hne Hroom Hkey. rewrite (chat_respond _ _ _ _ _ Hin Hne). split.
  - destruct (stream (api_provider wd) w) as [text|e] eqn:Hs.
    { rewrite (respond_stream_ok _ _ _ _ _ _ Hroom Hkey Hs).
      by destruct (disk w). }
    rewrite (respond_stream_raises _ _ _ _ _ _ Hroom Hkey Hs). simpl.
    destruct e; try done. intros [= ->].
    unfold stream in Hs. destruct (post w) as [t|r]; [done|].
    exists r. split; [done|]. unfold raise_for_status in Hs.
    case_bool_decide as Hst; simpl in Hs; [by injection Hs as <-|].
    destruct (stream_loop _ _ _) as [vars|e] eqn:Hl; simpl in Hs.
    + by destruct (interrupted r).
    + injection Hs as ->. by apply stream_loop_not_http in Hl.
  - intros (r & Hp & <- & Hst).
    rewrite (respond_stream_raises _ _ _ _ _ (HTTPError (status_code r)) Hroom Hkey);
      [done|].
    unfold stream, raise_for_status. rewrite Hp.
    by rewrite bool_decide_eq_true_2.
Qed.

Lemma stream_loop_blank (p : provider) (chunks : list chunk) (vars : json * string) :
  Forall (λ c, chunk_nonempty c = false) chunks →
  stream_loop p vars chunks = Ok vars.
Proof.
  induction 1 as [|c chunks Hc _ IH]; [done|].
  simpl. unfold loop_body. rewrite Hc. simpl. exact IH.
Qed.

(** X7. When the server answers with a status outside 400-599 and a body
    that holds no line but empty ones, the submit counts as answered: the
    user message and an assistant message with empty content are appended
    and saved. *)
Theorem empty_body_gives_empty_answer (wd : widgets) (w : world)
    (st : session_state) (fs : gmap string string) (prompt : string)
    (r : response) :
  chat_input wd = Some prompt → prompt ≠ "" →
  length (prune (now w) (api_calls st)) < 10 → api_key wd ≠ "" →
  post w = PostReturns r → raise_for_status r = Ok () →
  Forall (λ c, chunk_nonempty c = false) (iter_lines r) →
  interrupted r = None → writable w = true →
  let log := messages st ++ [user_message (full_prompt (file_content wd) prompt);
                             assistant_message ""] in
  chat wd w st fs
  = (Answered "",
     set_messages log (set_api_calls (prune (now w) (api_calls st) ++ [now w]) st),
     <[file_path (current_chat st) :=
         json_dumps (history_record (isoformat w) log)]> fs).
Proof.
  intros Hin Hne Hroom Hkey Hp Hst Hblank Hint Hw log.
  rewrite (chat_respond _ _ _ _ _ Hin Hne). apply writable_true in Hw.
  rewrite (respond_stream_ok _ _ _ _ _ "" Hroom Hkey), Hw; [done|].
  unfold stream. rewrite Hp, Hst. simpl.
  by rewrite (stream_loop_blank _ _ _ Hblank), Hint.
Qed.

(** X8. When the connection breaks after some lines of the body, the text
    accumulated from those lines is dropped: the submit ends in the generic
    handler with the transport error, the log is as before the submit and
    nothing is saved. *)
Theorem broken_stream_drops_text (wd : widgets) (w : world)
    (st : session_state) (fs : gmap string string) (prompt : string)
    (r : response) (vars : json * string) (t : transport_error) :
  chat_input wd = Some prompt → prompt ≠ "" →
  length (prune (now w) (api_calls st)) < 10 → api_key wd ≠ "" →
  post w = PostReturns r → raise_for_status r = Ok () →
  stream_loop (api_provider wd) (JStr "", "") (iter_lines r) = Ok vars →
  interrupted r = Some t →
  chat wd w st fs
  = (Failed (Transport t),
     set_api_calls (prune (now w) (api_calls st) ++ [now w]) st, fs).
Proof.
  intros Hin Hne Hroom Hkey Hp Hst Hloop Hint.
  rewrite (chat_respond _ _ _ _ _ Hin Hne).
  rewrite (respond_stream_raises _ _ _ _ _ (Transport t) Hroom Hkey); [done|].
  unfold stream. rewrite Hp, Hst. simpl. by rewrite Hloop, Hint.
Qed.

End HandlerCases.

(** ** The streaming loop, frame by frame *)

Section LoopCases.
Context `{!JsonModule}.

(** Whether [add_delta] raises, and what it adds, depends on the payload
    alone. *)
Lemma add_delta_from_empty (v : json) (acc : string) :
  add_delta v acc =
    match add_delta v "" with
    | Ok d => Ok (acc +:+ d)
    | Raise e => Raise e
    end.
Proof.
  unfold add_delta, py_in, py_getitem, py_getitem_0, py_get, py_iadd.
  repeat (case_match; simplify_eq/=; try done);
    by rewrite ?string_app_nil_r.
Qed.

Lemma add_delta_again (v : json) (acc acc' acc2 : string) :
  add_delta v acc = Ok acc' →
  add_delta v acc2
  = Ok (acc2 +:+ match delta_content v with Some d => d | None => "" end).
Proof.
  intros Hok. rewrite add_delta_from_empty in Hok.
  rewrite (add_delta_from_empty v acc2).
  destruct (add_delta v "") as [d|e] eqn:Hd; [|done].
  by rewrite (add_delta_ok _ _ _ Hd).
Qed.

Lemma loop_body_decodes (p : provider) (vars : json * string) (s : string) :
  s ≠ "" →
  loop_body p vars (Decodes s) =
    chunk_json ←
      match frame_payload p s with
      | Some t => loads t
      | None => Ok vars.1
      end;
    full_response ← add_delta chunk_json vars.2;
    Ok (chunk_json, full_response).
Proof.
  intros Hne. unfold loop_body.
  assert (chunk_nonempty (Decodes s) = true) as -> by by destruct s.
  by rewrite read_frame_payload.
Qed.

Lemma loop_body_blank (p : provider) (vars : json * string) (c : chunk) :
  chunk_nonempty c = false → loop_body p vars c = Ok vars.
Proof. intros Hc. unfold loop_body. by rewrite Hc. Qed.

(** X9. Empty lines of the body change nothing: the loop ends the same way,
    with the same payload and the same text, on the body without them. *)
Theorem blank_lines_are_skipped (p : provider) (chunks : list chunk) :
  ∀ vars : json * string,
  stream_loop p vars chunks = stream_loop p vars (List.filter chunk_nonempty chunks).
Proof.
  induction chunks as [|c chunks IH]; intros vars; [done|]. simpl.
  destruct (chunk_nonempty c) eqn:Hc.
  - simpl. destruct (loop_body p vars c); simpl; [apply IH|done].
  - rewrite (loop_body_blank _ _ _ Hc). simpl. apply IH.
Qed.

(** X10. When the loop ends without raising, the text it has accumulated is
    what it started with followed by one delta for every non-empty frame:
    the delta of the payload the frame parses to or, for a frame the
    provider branch does not parse, the delta of the payload left by an
    earlier frame. *)
Theorem accumulated_text (p : provider) (chunks : list chunk) :
  ∀ vars vars' : json * string,
  stream_loop p vars chunks = Ok vars' →
  vars'.2 = vars.2 +:+ concat_deltas (looked_at p vars.1 chunks).
Proof.
  induction chunks as [|c chunks IH]; intros vars vars' Hloop.
  - simpl in *. injection Hloop as <-. by rewrite string_app_nil_r.
  - simpl in Hloop.
    destruct (loop_body p vars c) as [vars1|] eqn:Hbody; [|done].
    simpl in Hloop. rewrite (IH _ _ Hloop). clear IH Hloop.
    destruct (chunk_nonempty c) eqn:Hc.
    2:{ rewrite (loop_body_blank _ _ _ Hc) in Hbody. injection Hbody as <-.
        cbn [looked_at]. by rewrite Hc. }
    destruct c as [s|]; [|by destruct p].
    assert (s ≠ "") as Hne by (by intros ->).
    rewrite (loop_body_decodes _ _ _ Hne) in Hbody.
    cbn [looked_at]. rewrite Hc.
    destruct (frame_payload p s) as [t|]; simpl in *.
    + unfold loads in Hbody. destruct (json_loads t) as [v|]; [|done].
      simpl in Hbody. destruct (add_delta v vars.2) as [full|] eqn:Hadd; [|done].
      injection Hbody as <-. simpl.
      by rewrite (add_delta_ok _ _ _ Hadd), string_app_assoc.
    + destruct (add_delta vars.1 vars.2) as [full|] eqn:Hadd; [|done].
      injection Hbody as <-. simpl.
      by rewrite (add_delta_ok _ _ _ Hadd), string_app_assoc.
Qed.

(** The payload the loop holds never makes lines 169-172 raise. *)
Lemma stream_loop_payload_ok (p : provider) (chunks : list chunk) :
  ∀ vars vars' : json * string,
  (∀ acc, ∃ acc', add_delta vars.1 acc = Ok acc') →
  stream_loop p vars chunks = Ok vars' →
  ∀ acc, ∃ acc', add_delta vars'.1 acc = Ok acc'.
Proof.
  induction chunks as [|c chunks IH]; intros vars vars' Hgood Hloop.
  - simpl in Hloop. by injection Hloop as <-.
  - simpl in Hloop.
    destruct (loop_body p vars c) as [vars1|] eqn:Hbody; [|done].
    simpl in Hloop. apply (IH vars1); [|done]. clear IH Hloop.
    unfold loop_body in Hbody. destruct (chunk_nonempty c).
    + destruct (read_frame p vars.1 c) as [cj|]; [|done]. simpl in Hbody.
      destruct (add_delta cj vars.2) as [full|] eqn:Hadd; [|done].
      injection Hbody as <-. simpl. intros acc. eexists.
      by apply (add_delta_again _ _ _ _ Hadd).
    + by injection Hbody as <-.
Qed.

(** X11. In the OpenRouter branch a non-empty frame that does not start
    with the marker never makes the loop raise, wherever it comes in a
    stream that got that far: the payload stays and its delta, if it has
    one, is added again. *)
Theorem unmarked_frame_never_raises (before : list chunk) (vars : json * string)
    (s : string) :
  stream_loop OpenRouter (JStr "", "") before = Ok vars →
  s ≠ "" → Py.startswith "data: " (Py.strip s) = false →
  loop_body OpenRouter vars (Decodes s)
  = Ok (vars.1,
        vars.2 +:+ match delta_content vars.1 with Some d => d | None => "" end).
Proof.
  intros Hloop Hne Hs.
  rewrite (loop_body_decodes _ _ _ Hne). unfold frame_payload. rewrite Hs. simpl.
  assert (∀ acc, ∃ acc', add_delta (JStr "", "").1 acc = Ok acc') as Hinit
    by (intros acc; by exists acc).
  destruct (stream_loop_payload_ok _ _ _ _ Hinit Hloop vars.2) as [acc' Hadd].
  by rewrite (add_delta_again _ _ _ _ Hadd).
Qed.

Lemma stream_loop_frame_raises (p : provider) (before after : list chunk)
    (vars : json * string) (s t : string) (v : json) (e : exn) :
  stream_loop p (JStr "", "") before = Ok vars →
  s ≠ "" → frame_payload p s = Some t → json_loads t = Some v →
  (∀ acc, add_delta v acc = Raise e) →
  stream_loop p (JStr "", "") (before ++ Decodes s :: after) = Raise e.
Proof.
  intros Hb Hne Hp Hl Hadd. rewrite stream_loop_app, Hb. simpl.
  rewrite (loop_body_decodes _ _ _ Hne), Hp. unfold loads. rewrite Hl. simpl.
  by rewrite Hadd.
Qed.

(** A failure of the loop, seen from the handler. *)
Lemma chat_loop_raises (wd : widgets) (w : world) (st : session_state)
    (fs : gmap string string) (prompt : string) (r : response) (e : exn) :
  chat_input wd = Some prompt → prompt ≠ "" →
  length (prune (now w) (api_calls st)) < 10 → api_key wd ≠ "" →
  post w = PostReturns r → raise_for_status r = Ok () →
  stream_loop (api_provider wd) (JStr "", "") (iter_lines r) = Raise e →
  chat wd w st fs
  = (reported e, set_api_calls (prune (now w) (api_calls st) ++ [now w]) st, fs).
Proof.
  intros Hin Hne Hroom Hkey Hp Hst Hloop.
  rewrite (chat_respond _ _ _ _ _ Hin Hne).
  apply respond_stream_raises; [done|done|].
  unfold stream. by rewrite Hp, Hst, Hloop.
Qed.

(** X12. A frame whose payload has [content] under [choices[0].delta] with
    a value that is not a string (a [null], say) makes the loop raise
    [TypeError] at the [+=]; the submit ends in the generic handler, the
    text of the earlier frames is dropped and the log is as before. *)
Theorem non_text_content_aborts (p : provider) (before after : list chunk)
    (vars : json * string) (s t : string)
    (d choice delta : list (string * json)) (others : list json) (x : json) :
  stream_loop p (JStr "", "") before = Ok vars →
  s ≠ "" → frame_payload p s = Some t → json_loads t = Some (JObj d) →
  dict_get "choices" d = Some (JArr (JObj choice :: others)) →
  dict_get "delta" choice = Some (JObj delta) →
  dict_get "content" delta = Some x → (∀ text, x ≠ JStr text) →
  stream_loop p (JStr "", "") (before ++ Decodes s :: after) = Raise TypeError
  ∧ (∀ (wd : widgets) (w : world) (st : session_state)
       (fs : gmap string string) (prompt : string) (r : response),
       api_provider wd = p →
       chat_input wd = Some prompt → prompt ≠ "" →
       length (prune (now w) (api_calls st)) < 10 → api_key wd ≠ "" →
       post w = PostReturns r → raise_for_status r = Ok () →
       iter_lines r = before ++ Decodes s :: after →
       chat wd w st fs
       = (Failed TypeError,
          set_api_calls (prune (now w) (api_calls st) ++ [now w]) st, fs)).
Proof.
  intros Hb Hne Hp Hl Hch Hde Hco Hx.
  assert (stream_loop p (JStr "", "") (before ++ Decodes s :: after) = Raise TypeError)
    as Hloop.
  { apply (stream_loop_frame_raises _ _ _ _ _ _ _ _ Hb Hne Hp Hl).
    intros acc. unfold add_delta. simpl. rewrite Hch. simpl.
    rewrite Hde. simpl. rewrite Hco. simpl.
    destruct x as [| | |text| |]; try done. by destruct (Hx text). }
  split; [done|].
  intros wd w st fs prompt r <- Hin Hpne Hroom Hkey Hpost Hst Hlines.
  apply (chat_loop_raises wd w st fs prompt r TypeError); try done. by rewrite Hlines.
Qed.

(** X13. A frame whose payload has an empty list under [choices] makes the
    loop raise [IndexError] at [[0]]; the submit ends in the generic
    handler and the log is as before. *)
Theorem empty_choices_aborts (p : provider) (before after : list chunk)
    (vars : json * string) (s t : string) (d : list (string * json)) :
  stream_loop p (JStr "", "") before = Ok vars →
  s ≠ "" → frame_payload p s = Some t → json_loads t = Some (JObj d) →
  dict_get "choices" d = Some (JArr []) →
  stream_loop p (JStr "", "") (before ++ Decodes s :: after) = Raise IndexError
  ∧ (∀ (wd : widgets) (w : world) (st : session_state)
       (fs : gmap string string) (prompt : string) (r : response),
       api_provider wd = p →
       chat_input wd = Some prompt → prompt ≠ "" →
       length (prune (now w) (api_calls st)) < 10 → api_key wd ≠ "" →
       post w = PostReturns r → raise_for_status r = Ok () →
       iter_lines r = before ++ Decodes s :: after →
       chat wd w st fs
       = (Failed IndexError,
          set_api_calls (prune (now w) (api_calls st) ++ [now w]) st, fs)).
Proof.
  intros Hb Hne Hp Hl Hch.
  assert (stream_loop p (JStr "", "") (before ++ Decodes s :: after) = Raise IndexError)
    as Hloop.
  { apply (stream_loop_frame_raises _ _ _ _ _ _ _ _ Hb Hne Hp Hl).
    intros acc. unfold add_delta. simpl. by rewrite Hch. }
  split; [done|].
  intros wd w st fs prompt r <- Hin Hpne Hroom Hkey Hpost Hst Hlines.
  apply (chat_loop_raises wd w st fs prompt r IndexError); try done. by rewrite Hlines.
Qed.

End LoopCases.

(** ** The history on disk and the run around the handler *)

Section HistoryCases.
Context `{!JsonModule}.

Lemma load_files_raises (files : list (string * string)) :
  ∀ (h0 : gmap string json) (e : exn),
  load_files files h0 = Raise e → e = JSONDecodeError.
Proof.
  induction files as [|[f t] files IH]; intros h0 e Hload; [done|].
  simpl in Hload. destruct (Py.endswith ".json" f); [|by apply (IH h0)].
  unfold loads in Hload. destruct (json_loads t) as [v|]; simpl in Hload.
  - by apply (IH _ _ Hload).
  - by injection Hload as <-.
Qed.

Lemma load_chat_history_raises (fs : gmap string string) (file text : string) :
  fs !! file = Some text → Py.endswith ".json" file = true →
  json_loads text = None →
  load_chat_history fs = Raise JSONDecodeError.
Proof.
  intros Hin Hend Hl.
  destruct (load_chat_history fs) as [h|e] eqn:Hload.
  - destruct (proj1 (load_chat_history_ok fs) (ex_intro _ h Hload) file text Hin Hend)
      as [v Hv]. congruence.
  - by rewrite (load_files_raises _ _ _ Hload).
Qed.

(** Writing one file whose text the [json] module reads adds one entry to
    what is loaded. *)
Lemma load_after_write (fs : gmap string string) (h0 : gmap string json)
    (k text : string) (v : json) :
  load_chat_history fs = Ok h0 → json_loads text = Some v →
  load_chat_history (<[file_path k := text]> fs) = Ok (<[k := v]> h0).
Proof.
  intros Hload Hv.
  destruct (proj2 (load_chat_history_ok (<[file_path k := text]> fs))) as [h Hh].
  { intros file text' Hin Hend.
    destruct (decide (file = file_path k)) as [->|Hne].
    - rewrite lookup_insert_eq in Hin. injection Hin as <-. by eexists.
    - rewrite lookup_insert_ne in Hin by done.
      by apply (proj1 (load_chat_history_ok fs) (ex_intro _ _ Hload) file text'). }
  rewrite Hh. f_equal. apply map_eq. intros k'.
  rewrite (load_chat_history_lookup _ _ Hh k').
  destruct (decide (k' = k)) as [->|Hne].
  - by rewrite !lookup_insert_eq.
  - rewrite !lookup_insert_ne; [|done|by intros ?%file_path_inj].
    by rewrite (load_chat_history_lookup _ _ Hload k').
Qed.

Lemma chat_keeps_history (wd : widgets) (w : world) (st : session_state)
    (fs : gmap string string) :
  chat_history (chat wd w st fs).1.2 = chat_history st.
Proof.
  destruct (chat_cases wd w st fs)
    as [->|[->|[->|[(e & _ & ->)|[(text & user & fs' & _ & _ & _ & ->)
                                 |(text & user & _ & _ & ->)]]]]]; done.
Qed.

(** X14. When [load_chat_history] does not raise, the history it returns
    has, under each key, the decoded contents of the file of that name with
    [.json] appended, and no key without such a file: files whose names do
    not end in [.json] are left out. *)
Theorem loaded_history_keys (fs : gmap string string) (h : gmap string json) :
  load_chat_history fs = Ok h →
  ∀ k, h !! k = fs !! (k +:+ ".json") ≫= json_loads.
Proof. apply load_chat_history_lookup. Qed.

(** X15. One file of the history directory whose name ends in [.json] and
    whose contents the [json] module rejects makes [load_chat_history]
    raise, and with it every run of the script ends at line 100: the
    handler does not run, no timestamp is recorded, no message is
    appended and no file is written. *)
Theorem corrupt_file_blocks_run (fs : gmap string string) (file text : string) :
  fs !! file = Some text → Py.endswith ".json" file = true →
  json_loads text = None →
  load_chat_history fs = Raise JSONDecodeError
  ∧ ∀ (wd : widgets) (w : world) (st : session_state),
      script wd w st fs = (Uncaught JSONDecodeError, st, fs).
Proof.
  intros Hin Hend Hl.
  pose proof (load_chat_history_raises _ _ _ Hin Hend Hl) as Hload.
  split; [done|]. intros wd w st. unfold script, reload. by rewrite Hload.
Qed.

(** X16. The history kept in the session state is the one that was on disk
    when the run started: the record that the run itself saves is not in it
    before the next run. *)
Theorem history_lags_one_run (wd : widgets) (w : world) (st : session_state)
    (fs : gmap string string) (h0 : gmap string json) :
  load_chat_history fs = Ok h0 →
  chat_history (script wd w st fs).1.2 = h0.
Proof.
  intros Hload. unfold script, reload. rewrite Hload. simpl.
  by rewrite chat_keeps_history.
Qed.

(** X17. Starting a new chat empties the log and changes the identifier but
    keeps the rate window: a submit that would have been rejected in the old
    chat is rejected in the new one as well. *)
Theorem new_chat_keeps_rate_window (uuid4 : string) (w0 w : world)
    (wd : widgets) (st st' : session_state) (fs fs' : gmap string string)
    (prompt : string) :
  new_chat uuid4 w0 st fs = (Ok st', fs') →
  chat_input wd = Some prompt → prompt ≠ "" →
  10 ≤ length (prune (now w) (api_calls st)) →
  messages st' = [] ∧ current_chat st' = uuid4
  ∧ chat wd w st' fs'
    = (RateLimited, set_api_calls (prune (now w) (api_calls st)) st', fs').
Proof.
  intros Hnew Hin Hne Hfull. unfold new_chat in Hnew.
  destruct (save_chat_history w0 st fs) as [[|e] fs1]; [|done].
  injection Hnew as <- <-. split; [done|]. split; [done|].
  rewrite (chat_respond _ _ _ _ _ Hin Hne). by rewrite respond_rejected by exact Hfull.
Qed.

(** X19. A file that cannot be read (a type that is neither plain text nor
    a Word document, or an extraction that raises) contributes nothing: the
    extracted content is empty and the submit goes exactly as it would
    without a file. *)
Theorem unreadable_upload_is_ignored (file : uploaded_file) (wd : widgets)
    (w : world) (st : session_state) (fs : gmap string string) :
  (type file ≠ "text/plain" ∧ type file ≠ docx_type)
  ∨ (type file = "text/plain" ∧ read_decode file = None)
  ∨ (type file = docx_type ∧ paragraphs file = None) →
  read_uploaded_file file = ""
  ∧ chat (with_upload (Some file) wd) w st fs = chat (with_upload None wd) w st fs.
Proof.
  intros Hcases.
  assert (read_uploaded_file file = "") as Hempty.
  { unfold read_uploaded_file.
    destruct Hcases as [[Ht Hd]|[[Ht Hr]|[Ht Hp]]].
    - apply String.eqb_neq in Ht as ->. by apply String.eqb_neq in Hd as ->.
    - by rewrite Ht, Hr.
    - by rewrite Ht, Hp. }
  split; [done|].
  unfold chat, respond, answer, file_content. simpl. by rewrite Hempty.
Qed.

End HistoryCases.

(** X18. After a submit that is answered, the file of the chat holds the log
    as it is in memory: loading the history gives, under the identifier of
    the chat, the record with all the messages of the session state, next to
    the chats that loaded before the submit.  (With the reference [json]
    module.) *)
Theorem answered_log_is_on_disk (wd : widgets) (w : world)
    (st st' : session_state) (fs fs' : gmap string string)
    (h0 : gmap string json) (text : string) :
  @chat Json.module wd w st fs = (Answered text, st', fs') →
  @load_chat_history Json.module fs = Ok h0 →
  @load_chat_history Json.module fs'
  = Ok (<[current_chat st' := history_record (isoformat w) (messages st')]> h0).
Proof.
  intros Hchat Hload.
  destruct (@chat_answered_inv Json.module _ _ _ _ _ _ _ Hchat)
    as (prompt & Hin & Hne & Hroom & Hkey & Hs & Hw).
  rewrite (@chat_respond Json.module _ _ _ _ _ Hin Hne) in Hchat.
  apply writable_true in Hw.
  rewrite (@respond_stream_ok Json.module _ _ _ _ _ _ Hroom Hkey Hs), Hw in Hchat.
  injection Hchat as <- <-. simpl.
  apply (@load_after_write Json.module); [done|].
  apply JsonFacts.loads_dumps_history.
Qed.

(** X20. The line [data: [DONE]] that ends a stream of server-sent events is
    handed to [json.loads] in both branches of the loop and is not JSON: the
    loop raises [JSONDecodeError] when it reaches it, and a submit whose
    stream holds that line ends in the generic handler with the log as
    before and nothing saved, whatever was streamed before it.  (With the
    reference [json] module.) *)
Theorem done_marker_aborts (p : provider) (before after : list chunk)
    (vars : json * string) :
  @stream_loop Json.module p (JStr "", "") before = Ok vars →
  @stream_loop Json.module p (JStr "", "") (before ++ Decodes "data: [DONE]" :: after)
  = Raise JSONDecodeError
  ∧ (∀ (wd : widgets) (w : world) (st : session_state)
       (fs : gmap string string) (prompt : string) (r : response),
       api_provider wd = p →
       chat_input wd = Some prompt → prompt ≠ "" →
       length (prune (now w) (api_calls st)) < 10 → api_key wd ≠ "" →
       post w = PostReturns r → raise_for_status r = Ok () →
       iter_lines r = before ++ Decodes "data: [DONE]" :: after →
       @chat Json.module wd w st fs
       = (Failed JSONDecodeError,
          set_api_calls (prune (now w) (api_calls st) ++ [now w]) st, fs)).
Proof.
  intros Hb.
  assert (@stream_loop Json.module p (JStr "", "")
            (before ++ Decodes "data: [DONE]" :: after) = Raise JSONDecodeError)
    as Hloop.
  { apply (@stream_loop_unparsable Json.module p _ vars before after
             "data: [DONE]" "[DONE]"); [done|done| |].
    - destruct p; vm_compute; reflexivity.
    - vm_compute. reflexivity. }
  split; [done|].
  intros wd w st fs prompt r <- Hin Hpne Hroom Hkey Hpost Hst Hlines.
  apply (@chat_loop_raises Json.module wd w st fs prompt r JSONDecodeError);
    try done.
  by rewrite Hlines.
Qed.

(** * The further properties at concrete inputs *)

Section FurtherWitnesses.
#[local] Existing Instance Json.module.

Import Scenario.

(** Ten calls in ten seconds, and an eleventh twenty seconds later. *)
Lemma admitted_iff_room_witness :
  let times := [1; 2; 3; 4; 5; 6; 7; 8; 9; 10]%Q in
  chronological (times ++ [30%Q])
  ∧ ((check_rate_limit 30 (admits times (initial_state "chat-1"))).1 = true
     ↔ length (in_window 30 (admitted times (initial_state "chat-1"))) < 10).
Proof.
  intros times.
  assert (chronological (times ++ [30%Q])) as Hc by (simpl; repeat split; lra).
  split; [exact Hc|]. exact (admitted_iff_room "chat-1" times 30 Hc).
Defined.

(** The disk fills up during the save of the answer to "Hello", after one
    character: the file of the chat, which held the record of an earlier
    save, is left with that character; the other file is as it was; and the
    next run of the script ends at line 100, because the file does not
    load. *)
Lemma chat_frame_witness :
  let wd := typed DeepSeekDirect "Hello" in
  let w := full_disk 1 (replies 200 [Decodes (payload "Hi")]) in
  let fs : gmap string string :=
    {[ "chat-1.json" := Json.dumps (history_record "2024-04-30T09:00:00" []);
       "notes.txt" := "not json" ]} in
  let r := chat wd w fresh fs in
  r = (Failed OSError,
       set_messages [user_message "Hello"] (set_api_calls [100%Q] fresh),
       {[ "chat-1.json" := "{"; "notes.txt" := "not json" ]})
  ∧ script wd (replies 200 []) r.1.2 r.2 = (Uncaught JSONDecodeError, r.1.2, r.2)
  ∧ (r.2 = fs
     ∨ ∃ written text,
         disk w = WriteRaises written
         ∧ stream (api_provider wd) w = Ok text
         ∧ r.1.1 = Failed OSError
         ∧ r.2 = <[file_path (current_chat fresh) :=
                     Py.slice_to written
                       (json_dumps (history_record (isoformat w)
                          (messages r.1.2 ++ [assistant_message text])))]> fs).
Proof.
  intros wd w fs r.
  assert (∀ text, r.1.1 ≠ Answered text) as Hno.
  { intros text. vm_compute. discriminate. }
  split; [vm_compute; reflexivity|]. split; [vm_compute; reflexivity|].
  exact (proj2 (proj2 (proj2 (proj2 (proj2 (proj2 (proj2
           (chat_frame wd w fresh fs))))))) Hno).
Defined.

(** A full window whose entries are all a minute old. *)
Lemma window_expires_witness :
  let st := set_api_calls [31; 32; 33; 34; 35; 36; 37; 38; 39; 40]%Q fresh in
  Forall (λ t, (t <= 100 - 60)%Q) (api_calls st)
  ∧ check_rate_limit 100 st = (true, set_api_calls [100%Q] st).
Proof.
  intros st.
  assert (Forall (λ t, (t <= 100 - 60)%Q) (api_calls st)) as Hold.
  { simpl. repeat (apply Forall_cons; split; [lra|]). by apply Forall_nil. }
  split; [exact Hold|]. exact (window_expires 100 st Hold).
Defined.

Lemma window_is_recent_history_witness :
  let times := [1; 2; 3; 4; 5; 6; 7; 8; 9; 10; 11]%Q in
  chronological (times ++ [62%Q])
  ∧ api_calls (admits (times ++ [62%Q]) (initial_state "chat-1"))
    = in_window 62 (admitted (times ++ [62%Q]) (initial_state "chat-1")).
Proof.
  intros times.
  assert (chronological (times ++ [62%Q])) as Hc by (simpl; repeat split; lra).
  split; [exact Hc|]. exact (window_is_recent_history "chat-1" times 62 Hc).
Defined.


Lemma api_error_iff_status_witness :
  let wd := typed OpenRouter "Hello" in
  let w := replies 429 [] in
  chat_input wd = Some "Hello" ∧ "Hello" ≠ ""
  ∧ length (prune (now w) (api_calls fresh)) < 10 ∧ api_key wd ≠ ""
  ∧ ((chat wd w fresh ∅).1.1 = ApiError 429
     ↔ ∃ r, post w = PostReturns r ∧ status_code r = 429%Z ∧ (400 ≤ 429 < 600)%Z).
Proof.
  intros wd w.
  assert (length (prune (now w) (api_calls fresh)) < 10) as Hroom
    by (vm_compute; lia).
  split; [reflexivity|]. split; [discriminate|]. split; [exact Hroom|].
  split; [discriminate|].
  exact (api_error_iff_status wd w fresh ∅ "Hello" 429 eq_refl
           ltac:(discriminate) Hroom ltac:(discriminate)).
Defined.

(** A body of two empty lines. *)
Lemma empty_body_gives_empty_answer_witness :
  let wd := typed DeepSeekDirect "Hello" in
  let r := {| status_code := 200; iter_lines := [Decodes ""; Decodes ""];
              interrupted := None |} in
  let w := replies 200 [Decodes ""; Decodes ""] in
  let log := messages fresh ++ [user_message (full_prompt (file_content wd) "Hello");
                                assistant_message ""] in
  chat_input wd = Some "Hello" ∧ "Hello" ≠ ""
  ∧ length (prune (now w) (api_calls fresh)) < 10 ∧ api_key wd ≠ ""
  ∧ post w = PostReturns r ∧ raise_for_status r = Ok ()
  ∧ Forall (λ c, chunk_nonempty c = false) (iter_lines r)
  ∧ interrupted r = None ∧ writable w = true
  ∧ chat wd w fresh ∅
    = (Answered "",
       set_messages log
         (set_api_calls (prune (now w) (api_calls fresh) ++ [now w]) fresh),
       <[file_path (current_chat fresh) :=
           json_dumps (history_record (isoformat w) log)]> ∅).
Proof.
  intros wd r w log.
  assert (length (prune (now w) (api_calls fresh)) < 10) as Hroom
    by (vm_compute; lia).
  assert (Forall (λ c, chunk_nonempty c = false) (iter_lines r)) as Hblank
    by (repeat (apply Forall_cons; split; [reflexivity|]); by apply Forall_nil).
  split; [reflexivity|]. split; [discriminate|]. split; [exact Hroom|].
  split; [discriminate|]. split; [reflexivity|]. split; [reflexivity|].
  split; [exact Hblank|]. split; [reflexivity|]. split; [reflexivity|].
  exact (empty_body_gives_empty_answer wd w fresh ∅ "Hello" r eq_refl
           ltac:(discriminate) Hroom ltac:(discriminate) eq_refl eq_refl
           Hblank eq_refl eq_refl).
Defined.

(** The connection breaks after the delta "Hi". *)
Lemma broken_stream_drops_text_witness :
  let wd := typed DeepSeekDirect "Hello" in
  let r := {| status_code := 200; iter_lines := [Decodes (payload "Hi")];
              interrupted := Some ChunkedEncodingError |} in
  let w := {| now := 100; isoformat := "2024-05-01T12:00:00";
              post := PostReturns r; disk := Written |} in
  let vars :=
    (JObj [("choices", JArr [JObj [("delta", JObj [("content", JStr "Hi")])]])],
     "Hi") in
  chat_input wd = Some "Hello" ∧ "Hello" ≠ ""
  ∧ length (prune (now w) (api_calls fresh)) < 10 ∧ api_key wd ≠ ""
  ∧ post w = PostReturns r ∧ raise_for_status r = Ok ()
  ∧ stream_loop (api_provider wd) (JStr "", "") (iter_lines r) = Ok vars
  ∧ interrupted r = Some ChunkedEncodingError
  ∧ chat wd w fresh ∅
    = (Failed (Transport ChunkedEncodingError),
       set_api_calls (prune (now w) (api_calls fresh) ++ [now w]) fresh, ∅).
Proof.
  intros wd r w vars.
  assert (length (prune (now w) (api_calls fresh)) < 10) as Hroom
    by (vm_compute; lia).
  assert (stream_loop (api_provider wd) (JStr "", "") (iter_lines r) = Ok vars)
    as Hloop by (vm_compute; reflexivity).
  split; [reflexivity|]. split; [discriminate|]. split; [exact Hroom|].
  split; [discriminate|]. split; [reflexivity|]. split; [reflexivity|].
  split; [exact Hloop|]. split; [reflexivity|].
  exact (broken_stream_drops_text wd w fresh ∅ "Hello" r vars ChunkedEncodingError
           eq_refl ltac:(discriminate) Hroom ltac:(discriminate) eq_refl eq_refl
           Hloop eq_refl).
Defined.

(** Two payloads with a comment line between them, in the OpenRouter
    branch. *)
Lemma accumulated_text_witness :
  let chunks :=
    [Decodes ("data: " +:+ payload "Hi");
     Decodes ": OPENROUTER PROCESSING";
     Decodes ("data: " +:+ payload " there")] in
  let vars' :=
    (JObj [("choices", JArr [JObj [("delta", JObj [("content", JStr " there")])]])],
     "HiHi there") in
  stream_loop OpenRouter (JStr "", "") chunks = Ok vars'
  ∧ vars'.2 = "" +:+ concat_deltas (looked_at OpenRouter (JStr "") chunks).
Proof.
  intros chunks vars'.
  assert (stream_loop OpenRouter (JStr "", "") chunks = Ok vars') as Hloop
    by (vm_compute; reflexivity).
  split; [exact Hloop|].
  exact (accumulated_text OpenRouter chunks (JStr "", "") vars' Hloop).
Defined.

Lemma unmarked_frame_never_raises_witness :
  let before := [Decodes ("data: " +:+ payload "Hi")] in
  let vars :=
    (JObj [("choices", JArr [JObj [("delta", JObj [("content", JStr "Hi")])]])],
     "Hi") in
  stream_loop OpenRouter (JStr "", "") before = Ok vars
  ∧ ": OPENROUTER PROCESSING" ≠ ""
  ∧ Py.startswith "data: " (Py.strip ": OPENROUTER PROCESSING") = false
  ∧ loop_body OpenRouter vars (Decodes ": OPENROUTER PROCESSING")
    = Ok (vars.1,
          vars.2 +:+ match delta_content vars.1 with Some d => d | None => "" end).
Proof.
  intros before vars.
  assert (stream_loop OpenRouter (JStr "", "") before = Ok vars) as Hloop
    by (vm_compute; reflexivity).
  assert (Py.startswith "data: " (Py.strip ": OPENROUTER PROCESSING") = false)
    as Hs by (vm_compute; reflexivity).
  split; [exact Hloop|]. split; [discriminate|]. split; [exact Hs|].
  exact (unmarked_frame_never_raises before vars ": OPENROUTER PROCESSING"
           Hloop ltac:(discriminate) Hs).
Defined.

(** A payload whose content is [null]. *)
Lemma non_text_content_aborts_witness :
  let s := Json.text "{'choices':[{'delta':{'role':'assistant','content':null}}]}" in
  let delta := [("role", JStr "assistant"); ("content", JNull)] in
  let choice := [("delta", JObj delta)] in
  let d := [("choices", JArr [JObj choice])] in
  stream_loop DeepSeekDirect (JStr "", "") [] = Ok (JStr "", "")
  ∧ s ≠ "" ∧ frame_payload DeepSeekDirect s = Some s
  ∧ json_loads s = Some (JObj d)
  ∧ dict_get "choices" d = Some (JArr [JObj choice])
  ∧ dict_get "delta" choice = Some (JObj delta)
  ∧ dict_get "content" delta = Some JNull
  ∧ (∀ text, JNull ≠ JStr text)
  ∧ stream_loop DeepSeekDirect (JStr "", "") ([] ++ Decodes s :: [Decodes (payload "Hi")])
    = Raise TypeError.
Proof.
  intros s delta choice d.
  assert (s ≠ "") as Hne by (vm_compute; discriminate).
  assert (frame_payload DeepSeekDirect s = Some s) as Hp by (vm_compute; reflexivity).
  assert (json_loads s = Some (JObj d)) as Hl by (vm_compute; reflexivity).
  assert (∀ text, JNull ≠ JStr text) as Hx by (intros text; discriminate).
  split; [reflexivity|]. split; [exact Hne|]. split; [exact Hp|].
  split; [exact Hl|]. split; [reflexivity|]. split; [reflexivity|].
  split; [reflexivity|]. split; [exact Hx|].
  exact (proj1 (non_text_content_aborts DeepSeekDirect [] [Decodes (payload "Hi")]
                  (JStr "", "") s s d choice delta [] JNull eq_refl Hne Hp Hl
                  eq_refl eq_refl eq_refl Hx)).
Defined.

(** A payload with an empty list of choices. *)
Lemma empty_choices_aborts_witness :
  let s := Json.text "{'choices':[],'usage':{'total_tokens':7}}" in
  let d := [("choices", JArr []);
            ("usage", JObj [("total_tokens", JNum "7")])] in
  stream_loop DeepSeekDirect (JStr "", "") [] = Ok (JStr "", "")
  ∧ s ≠ "" ∧ frame_payload DeepSeekDirect s = Some s
  ∧ json_loads s = Some (JObj d)
  ∧ dict_get "choices" d = Some (JArr [])
  ∧ stream_loop DeepSeekDirect (JStr "", "") ([] ++ Decodes s :: [])
    = Raise IndexError.
Proof.
  intros s d.
  assert (s ≠ "") as Hne by (vm_compute; discriminate).
  assert (frame_payload DeepSeekDirect s = Some s) as Hp by (vm_compute; reflexivity).
  assert (json_loads s = Some (JObj d)) as Hl by (vm_compute; reflexivity).
  split; [reflexivity|]. split; [exact Hne|]. split; [exact Hp|].
  split; [exact Hl|]. split; [reflexivity|].
  exact (proj1 (empty_choices_aborts DeepSeekDirect [] [] (JStr "", "") s s d
                  eq_refl Hne Hp Hl eq_refl)).
Defined.

(** A directory with one chat and one file that is not a chat. *)
Lemma loaded_history_keys_witness :
  let old := history_record "2024-04-30T09:00:00" [user_message "Earlier"] in
  let fs : gmap string string :=
    {[ "chat-0.json" := Json.dumps old; "notes.txt" := "not json" ]} in
  let h : gmap string json := {[ "chat-0" := old ]} in
  load_chat_history fs = Ok h
  ∧ ∀ k, h !! k = fs !! (k +:+ ".json") ≫= json_loads.
Proof.
  intros old fs h.
  assert (load_chat_history fs = Ok h) as Hload by (vm_compute; reflexivity).
  split; [exact Hload|]. exact (loaded_history_keys fs h Hload).
Defined.

(** A chat file that was cut off. *)
Lemma corrupt_file_blocks_run_witness :
  let fs : gmap string string := {[ "chat-0.json" := "{" ]} in
  fs !! "chat-0.json" = Some "{"
  ∧ Py.endswith ".json" "chat-0.json" = true
  ∧ json_loads "{" = None
  ∧ load_chat_history fs = Raise JSONDecodeError
  ∧ ∀ (wd : widgets) (w : world) (st : session_state),
      script wd w st fs = (Uncaught JSONDecodeError, st, fs).
Proof.
  intros fs.
  assert (fs !! "chat-0.json" = Some "{") as Hin by (vm_compute; reflexivity).
  assert (Py.endswith ".json" "chat-0.json" = true) as Hend
    by (vm_compute; reflexivity).
  assert (json_loads "{" = None) as Hl by (vm_compute; reflexivity).
  split; [exact Hin|]. split; [exact Hend|]. split; [exact Hl|].
  exact (corrupt_file_blocks_run fs "chat-0.json" "{" Hin Hend Hl).
Defined.

(** The first answered submit of a chat. *)
Lemma history_lags_one_run_witness :
  let wd := typed DeepSeekDirect "Hello" in
  let w := replies 200 [Decodes (payload "Hi")] in
  load_chat_history (∅ : gmap string string) = Ok ∅
  ∧ chat_history (script wd w fresh ∅).1.2 = ∅.
Proof.
  intros wd w.
  assert (load_chat_history (∅ : gmap string string) = Ok ∅) as Hload
    by (vm_compute; reflexivity).
  split; [exact Hload|]. exact (history_lags_one_run wd w fresh ∅ ∅ Hload).
Defined.

(** A new chat is started with a full window. *)
Lemma new_chat_keeps_rate_window_witness :
  let st := set_api_calls [91; 92; 93; 94; 95; 96; 97; 98; 99; 100]%Q fresh in
  let st' := {| messages := []; current_chat := "chat-2";
                chat_history := ∅; api_calls := api_calls st |} in
  let fs' : gmap string string :=
    {[ "chat-1.json" := Json.dumps (history_record "2024-05-01T12:00:00" []) ]} in
  let wd := typed DeepSeekDirect "Hello" in
  let w := at_time 101 (replies 200 []) in
  new_chat "chat-2" (replies 200 []) st ∅ = (Ok st', fs')
  ∧ chat_input wd = Some "Hello" ∧ "Hello" ≠ ""
  ∧ 10 ≤ length (prune (now w) (api_calls st))
  ∧ messages st' = [] ∧ current_chat st' = "chat-2"
  ∧ chat wd w st' fs'
    = (RateLimited, set_api_calls (prune (now w) (api_calls st)) st', fs').
Proof.
  intros st st' fs' wd w.
  assert (new_chat "chat-2" (replies 200 []) st ∅ = (Ok st', fs')) as Hnew
    by (vm_compute; reflexivity).
  assert (10 ≤ length (prune (now w) (api_calls st))) as Hfull
    by (vm_compute; lia).
  split; [exact Hnew|]. split; [reflexivity|]. split; [discriminate|].
  split; [exact Hfull|].
  exact (new_chat_keeps_rate_window "chat-2" (replies 200 []) w wd st st' ∅ fs'
           "Hello" Hnew eq_refl ltac:(discriminate) Hfull).
Defined.

(** The answer to "Hello" in a directory that held no chat. *)
Lemma answered_log_is_on_disk_witness :
  let wd := typed DeepSeekDirect "Hello" in
  let w := replies 200 [Decodes (payload "Hi"); Decodes (payload " there")] in
  let log := [user_message "Hello"; assistant_message "Hi there"] in
  let st' := set_messages log (set_api_calls [100%Q] fresh) in
  let fs' : gmap string string :=
    {[ "chat-1.json" := Json.dumps (history_record "2024-05-01T12:00:00" log) ]} in
  chat wd w fresh ∅ = (Answered "Hi there", st', fs')
  ∧ load_chat_history (∅ : gmap string string) = Ok ∅
  ∧ load_chat_history fs'
    = Ok (<[current_chat st' := history_record (isoformat w) (messages st')]> ∅).
Proof.
  intros wd w log st' fs'.
  assert (chat wd w fresh ∅ = (Answered "Hi there", st', fs')) as Hchat
    by (vm_compute; reflexivity).
  assert (load_chat_history (∅ : gmap string string) = Ok ∅) as Hload
    by (vm_compute; reflexivity).
  split; [exact Hchat|]. split; [exact Hload|].
  exact (answered_log_is_on_disk wd w fresh st' ∅ fs' ∅ "Hi there" Hchat Hload).
Defined.

(** A PDF is attached. *)
Lemma unreadable_upload_is_ignored_witness :
  let file := {| type := "application/pdf"; read_decode := None;
                 paragraphs := None |} in
  let wd := typed DeepSeekDirect "Summarize." in
  let w := replies 200 [Decodes (payload "Done.")] in
  ((type file ≠ "text/plain" ∧ type file ≠ docx_type)
   ∨ (type file = "text/plain" ∧ read_decode file = None)
   ∨ (type file = docx_type ∧ paragraphs file = None))
  ∧ read_uploaded_file file = ""
  ∧ chat (with_upload (Some file) wd) w fresh ∅
    = chat (with_upload None wd) w fresh ∅.
Proof.
  intros file wd w.
  assert ((type file ≠ "text/plain" ∧ type file ≠ docx_type)
          ∨ (type file = "text/plain" ∧ read_decode file = None)
          ∨ (type file = docx_type ∧ paragraphs file = None)) as Hcases
    by (left; split; discriminate).
  split; [exact Hcases|].
  exact (unreadable_upload_is_ignored file wd w fresh ∅ Hcases).
Defined.

(** The marker after the delta "Hi", in the format of the first provider. *)
Lemma done_marker_aborts_witness :
  let before := [Decodes ("data: " +:+ payload "Hi")] in
  let vars :=
    (JObj [("choices", JArr [JObj [("delta", JObj [("content", JStr "Hi")])]])],
     "Hi") in
  stream_loop DeepSeekDirect (JStr "", "") before = Ok vars
  ∧ stream_loop DeepSeekDirect (JStr "", "") (before ++ Decodes "data: [DONE]" :: [])
    = Raise JSONDecodeError.
Proof.
  intros before vars.
  assert (stream_loop DeepSeekDirect (JStr "", "") before = Ok vars) as Hb
    by (vm_compute; reflexivity).
  split; [exact Hb|].
  exact (proj1 (done_marker_aborts DeepSeekDirect before [] vars Hb)).
Defined.

End FurtherWitnesses.
